(** * The research agent of [backend/services/research_agent.py]

    A shallow embedding of the [ResearchAgent] class: the question
    decomposer, the two search tiers and the mock generator behind them, the
    summarizer, the vector-store wrappers and [conduct_research], which
    sequences them.

    Conventions of the embedding.
    - A Python [str] is a [string]; the [str] methods the code calls
      ([lower], [strip], [startswith], [replace], [split], [in]) are defined
      on the ASCII range, other bytes being left as they are.
    - A Python [int] is a [Z].
    - A search-result [dict] is a [gmap string string]; a missing key is a
      missing key, and subscripting it raises [KeyError].
    - A call either returns or raises an instance of [Exception]
      ([outcome]); what is not one (an interrupt, a cancellation) is
      outside the embedding.  A coroutine that talks to the outside world
      threads the state of that world ([M]).  What is printed is not
      modelled. *)

From stdpp Require Import gmap strings list fin_maps pretty.
From Stdlib Require Import ZArith Lia Ascii.

Local Open Scope Z_scope.
Set Warnings "-register-all".

(** ** Exceptions and outcomes *)

Inductive exn : Type :=
  | TypeError
  | AttributeError
  | KeyError (key : string)
  | IndexError
  | ZeroDivisionError
  | JSONDecodeError
  | HTTPError (status : Z)
  | ServiceError (msg : string).

Inductive outcome (A : Type) : Type :=
  | Returns (a : A)
  | Raises (e : exn).

Arguments Returns {A} a.
Arguments Raises {A} e.

Definition obind {A B} (o : outcome A) (k : A -> outcome B) : outcome B :=
  match o with
  | Returns a => k a
  | Raises e => Raises e
  end.

(** [for x in l: acc = body(acc, x)] where the body may raise. *)
Fixpoint ofold {A B} (body : B -> A -> outcome B) (l : list A) (acc : B)
  : outcome B :=
  match l with
  | [] => Returns acc
  | x :: l' => obind (body acc x) (ofold body l')
  end.

(** ** Python built-ins *)

Module Py.

(** *** [str] *)

Definition is_upper (c : ascii) : bool :=
  let n := nat_of_ascii c in ((65 <=? n) && (n <=? 90))%nat.

Definition lower_char (c : ascii) : ascii :=
  if is_upper c then ascii_of_nat (nat_of_ascii c + 32) else c.

(** [s.lower()] *)
Fixpoint lower (s : string) : string :=
  match s with
  | EmptyString => EmptyString
  | String c s' => String (lower_char c) (lower s')
  end.

(** [s.startswith(p)] *)
Definition startswith (s p : string) : bool := String.prefix p s.

(** [s[n:]] for [n >= 0], the first [n] characters being ASCII *)
Fixpoint slice_from (s : string) (n : nat) : string :=
  match n, s with
  | O, _ => s
  | S n', String _ s' => slice_from s' n'
  | S _, EmptyString => EmptyString
  end.

(** [needle in hay] *)
Fixpoint contains (needle hay : string) : bool :=
  String.prefix needle hay ||
  match hay with
  | EmptyString => false
  | String _ hay' => contains needle hay'
  end.

(** [s.split(sep)] for a one-character separator. *)
Fixpoint split (sep : ascii) (s : string) : list string :=
  match s with
  | EmptyString => [EmptyString]
  | String c s' =>
      if Ascii.eqb c sep then EmptyString :: split sep s'
      else match split sep s' with
           | h :: t => String c h :: t
           | [] => [String c EmptyString]
           end
  end.

(** The characters [str.strip()] removes, on the ASCII range:
    tab, line feed, vertical tab, form feed, carriage return, the four
    separators 0x1c-0x1f and the space. *)
Definition is_space (c : ascii) : bool :=
  let n := nat_of_ascii c in
  (((9 <=? n) && (n <=? 13)) || ((28 <=? n) && (n <=? 32)))%nat.

Fixpoint lstrip (s : string) : string :=
  match s with
  | EmptyString => EmptyString
  | String c s' => if is_space c then lstrip s' else s
  end.

(** [s.rstrip()]: a character stays when it is not a space or when
    something stays after it. *)
Fixpoint rstrip (s : string) : string :=
  match s with
  | EmptyString => EmptyString
  | String c s' =>
      match rstrip s' with
      | EmptyString => if is_space c then EmptyString else String c EmptyString
      | r => String c r
      end
  end.

(** [s.strip()] *)
Definition strip (s : string) : string := rstrip (lstrip s).

(** [s.replace(old, new)] for a non-empty [old]: the occurrences are
    taken from left to right and do not overlap; [skip] counts the
    characters of the occurrence just replaced that are still to be
    dropped. *)
Fixpoint replace_from (old new : string) (skip : nat) (s : string) : string :=
  match s with
  | EmptyString => EmptyString
  | String c s' =>
      match skip with
      | S k => replace_from old new k s'
      | O =>
          if String.prefix old s
          then new +:+ replace_from old new (String.length old - 1) s'
          else String c (replace_from old new O s')
      end
  end.

Definition replace (s old new : string) : string := replace_from old new O s.

(** The line feed, [chr(10)]. *)
Definition nl : string := String "010"%char EmptyString.

(** [sep.join(l)] *)
Fixpoint join (sep : string) (l : list string) : string :=
  match l with
  | [] => EmptyString
  | [x] => x
  | x :: l' => x +:+ sep +:+ join sep l'
  end.

(** [list(s)]: the characters of [s], each with the bytes that continue
    it in UTF-8. *)
Definition is_continuation (c : ascii) : bool :=
  let n := nat_of_ascii c in ((128 <=? n) && (n <=? 191))%nat.

Fixpoint chars (s : string) : list string :=
  match s with
  | EmptyString => []
  | String c s' =>
      match chars s' with
      | String d h :: t =>
          if is_continuation d then String c (String d h) :: t
          else String c EmptyString :: String d h :: t
      | t => String c EmptyString :: t
      end
  end.

(** [str(i)] for an [int] *)
Definition str_of_int (i : Z) : string := pretty i.

(** *** Lists *)

(** [l[:n]]: the first [n] elements, or all but the last [-n] when [n] is
    negative. *)
Definition slice_to {A} (l : list A) (n : Z) : list A :=
  if 0 <=? n then take (Z.to_nat n) l
  else take (length l - Z.to_nat (- n)) l.

(** [range(n)] *)
Definition range (n : Z) : list Z := Z.of_nat <$> seq 0 (Z.to_nat n).

(** [list(enumerate(l))] *)
Definition enumerate {A} (l : list A) : list (Z * A) :=
  imap (fun i x => (Z.of_nat i, x)) l.

(** [a // b] *)
Definition floordiv (a b : Z) : outcome Z :=
  if b =? 0 then Raises ZeroDivisionError else Returns (a / b).

(** [d[key]] *)
Definition getitem (d : gmap string string) (key : string) : outcome string :=
  match d !! key with
  | Some v => Returns v
  | None => Raises (KeyError key)
  end.

End Py.

(** ** The mock result generator *)

(** The [topics] literal of [_generate_mock_results]: a [dict] is iterated in
    insertion order, so it is the list of its items. *)
Definition topics : list (string * list (gmap string string)) :=
  [ ("climate change",
      [ {[ "title" := "Climate Change Overview - EPA"; "source" := "epa.gov";
           "snippet" := "Climate change refers to long-term shifts in global temperatures and weather patterns." ]};
        {[ "title" := "Global Warming Facts - NASA"; "source" := "nasa.gov";
           "snippet" := "Scientific evidence shows that human activities are the primary cause of recent climate change." ]};
        {[ "title" := "Climate Change Impacts - IPCC"; "source" := "ipcc.ch";
           "snippet" := "Climate change affects ecosystems, human health, and economic systems worldwide." ]} ]);
    ("artificial intelligence",
      [ {[ "title" := "What is Artificial Intelligence? - MIT"; "source" := "mit.edu";
           "snippet" := "AI is the simulation of human intelligence processes by machines and computer systems." ]};
        {[ "title" := "Machine Learning Basics - Stanford"; "source" := "stanford.edu";
           "snippet" := "Machine learning is a subset of AI that enables computers to learn from data." ]};
        {[ "title" := "AI Applications - IEEE"; "source" := "ieee.org";
           "snippet" := "AI applications span across healthcare, finance, transportation, and entertainment." ]} ]);
    ("economic",
      [ {[ "title" := "Economic Principles - World Bank"; "source" := "worldbank.org";
           "snippet" := "Economic analysis examines how societies allocate scarce resources." ]};
        {[ "title" := "Global Economic Trends - IMF"; "source" := "imf.org";
           "snippet" := "Current economic indicators show varying growth patterns across regions." ]};
        {[ "title" := "Economic Policy Impact - OECD"; "source" := "oecd.org";
           "snippet" := "Economic policies significantly influence market dynamics and social outcomes." ]} ]) ].

(** [for topic, results in topics.items(): if topic in query_lower: ... break] *)
Fixpoint find_topic (query_lower : string)
    (items : list (string * list (gmap string string)))
  : option (list (gmap string string)) :=
  match items with
  | [] => None
  | (topic, results) :: items' =>
      if Py.contains topic query_lower then Some results
      else find_topic query_lower items'
  end.

(** The generic record built for index [i] of [range(max_results)]. *)
Definition generic_result (query : string) (i : Z) : gmap string string :=
  {[ "title" := "Research Result " +:+ Py.str_of_int (i + 1) +:+ ": " +:+ query;
     "link" := "https://example.com/research-" +:+ Py.str_of_int (i + 1);
     "snippet" := "This is a research finding related to " +:+ query +:+
                  ". The information provides insights and analysis on the topic.";
     "source" := "research-source-" +:+ Py.str_of_int (i + 1) +:+ ".com";
     "query" := query ]}.

(** The body of the closing loop: [result["query"] = query], then the link
    is filled in from the source when the key is absent. *)
Definition complete_result (query : string) (result : gmap string string)
  : outcome (gmap string string) :=
  let result := <["query" := query]> result in
  match result !! "link" with
  | Some _ => Returns result
  | None =>
      obind (Py.getitem result "source") (fun source =>
      Returns (<["link" := "https://" +:+ source]> result))
  end.

(** The closing loop, [for result in mock_results: ...]. *)
Definition closing_loop (query : string) (mock_results : list (gmap string string))
  : outcome (list (gmap string string)) :=
  ofold (fun completed result =>
           obind (complete_result query result) (fun result' =>
           Returns (completed ++ [result'])))
        mock_results [].

Definition _generate_mock_results (query : string) (max_results : Z)
  : outcome (list (gmap string string)) :=
  let query_lower := Py.lower query in
  let relevant_topic := find_topic query_lower topics in
  let mock_results :=
    match relevant_topic with
    | Some (r :: rs) => Py.slice_to (r :: rs) max_results
    | _ => generic_result query <$> Py.range max_results
    end in
  closing_loop query mock_results.

(** ** The [json] decoder

    [json.loads] as the standard decoder does it with its default
    settings.  A number keeps its literal; a character escaped as
    [\uXXXX] is stored in UTF-8.  The limits of the interpreter (nesting
    depth, digits of an integer) are not modelled: where the decoder
    would give up on them it raises, which the caller treats as any other
    failure to parse. *)

Inductive json : Type :=
  | JNull
  | JBool (b : bool)
  | JNum (literal : string)
  | JStr (s : string)
  | JArr (items : list json)
  | JObj (members : list (string * json)).

Module Json.

Definition is_ws (c : ascii) : bool :=
  match c with
  | " "%char | "009"%char | "010"%char | "013"%char => true
  | _ => false
  end.

Fixpoint skip_ws (s : string) : string :=
  match s with
  | String c s' => if is_ws c then skip_ws s' else s
  | EmptyString => s
  end.

Definition is_digit (c : ascii) : bool :=
  let n := nat_of_ascii c in ((48 <=? n) && (n <=? 57))%nat.

(** The longest prefix of digits, and what follows it. *)
Fixpoint span_digits (s : string) : string * string :=
  match s with
  | String c s' =>
      if is_digit c then let '(ds, r) := span_digits s' in (String c ds, r)
      else (EmptyString, s)
  | EmptyString => (EmptyString, s)
  end.

(** The integer part: an optional minus sign, then a single zero or a
    run of digits that does not start with zero. *)
Definition scan_int (s : string) : option (string * string) :=
  let '(sign, s1) :=
    match s with
    | String "-"%char s' => ("-", s')
    | _ => ("", s)
    end in
  match s1 with
  | String "0"%char s2 => Some (sign +:+ "0", s2)
  | String c _ =>
      if is_digit c then let '(ds, r) := span_digits s1 in Some (sign +:+ ds, r)
      else None
  | EmptyString => None
  end.

(** The optional fraction: a point and at least one digit. *)
Definition scan_frac (s : string) : string * string :=
  match s with
  | String "."%char s' =>
      match span_digits s' with
      | (EmptyString, _) => (EmptyString, s)
      | (ds, r) => ("." +:+ ds, r)
      end
  | _ => (EmptyString, s)
  end.

(** The optional exponent: e or E, an optional sign, at least one digit. *)
Definition scan_exp (s : string) : string * string :=
  match s with
  | String e s' =>
      if Ascii.eqb e "e" || Ascii.eqb e "E" then
        let '(sign, s1) :=
          match s' with
          | String "-"%char s'' => ("-", s'')
          | String "+"%char s'' => ("+", s'')
          | _ => ("", s')
          end in
        match span_digits s1 with
        | (EmptyString, _) => (EmptyString, s)
        | (ds, r) => (String e sign +:+ ds, r)
        end
      else (EmptyString, s)
  | EmptyString => (EmptyString, s)
  end.

Definition scan_number (s : string) : option (string * string) :=
  match scan_int s with
  | None => None
  | Some (i, r) =>
      let '(f, r1) := scan_frac r in
      let '(e, r2) := scan_exp r1 in
      Some (i +:+ f +:+ e, r2)
  end.

Definition hex_val (c : ascii) : option N :=
  let n := N_of_ascii c in
  (if (48 <=? n) && (n <=? 57) then Some (n - 48)
   else if (97 <=? n) && (n <=? 102) then Some (n - 87)
   else if (65 <=? n) && (n <=? 70) then Some (n - 55)
   else None)%N.

(** The four hexadecimal digits of a [\uXXXX] escape. *)
Definition scan_hex4 (s : string) : option (N * string) :=
  match s with
  | String a (String b (String c (String d r))) =>
      match hex_val a, hex_val b, hex_val c, hex_val d with
      | Some x, Some y, Some z, Some t => Some (((x * 16 + y) * 16 + z) * 16 + t, r)
      | _, _, _, _ => None
      end
  | _ => None
  end%N.

Definition byte (n : N) : ascii := ascii_of_N n.

(** The UTF-8 bytes of [chr(u)]. *)
Definition utf8 (u : N) : string :=
  (if u <? 128 then String (byte u) EmptyString
   else if u <? 2048 then
     String (byte (192 + u / 64)) (String (byte (128 + u mod 64)) EmptyString)
   else if u <? 65536 then
     String (byte (224 + u / 4096))
       (String (byte (128 + (u / 64) mod 64))
          (String (byte (128 + u mod 64)) EmptyString))
   else
     String (byte (240 + u / 262144))
       (String (byte (128 + (u / 4096) mod 64))
          (String (byte (128 + (u / 64) mod 64))
             (String (byte (128 + u mod 64)) EmptyString))))%N.

(** The [BACKSLASH] table of the decoder. *)
Definition backslash (c : ascii) : option ascii :=
  match c with
  | "034"%char => Some "034"%char
  | "\"%char => Some "\"%char
  | "/"%char => Some "/"%char
  | "b"%char => Some "008"%char
  | "f"%char => Some "012"%char
  | "n"%char => Some "010"%char
  | "r"%char => Some "013"%char
  | "t"%char => Some "009"%char
  | _ => None
  end.

(** What follows [\u]: one escape, or a surrogate pair. *)
Definition scan_unicode (s : string) : option (string * string) :=
  match scan_hex4 s with
  | None => None
  | Some (u, r) =>
      if ((55296 <=? u) && (u <=? 56319))%N then
        match r with
        | String "\"%char (String "u"%char r1) =>
            match scan_hex4 r1 with
            | None => None
            | Some (u2, r2) =>
                if ((56320 <=? u2) && (u2 <=? 57343))%N
                then Some (utf8 (65536 + ((u - 55296) * 1024 + (u2 - 56320))), r2)
                else Some (utf8 u, r)
            end
        | _ => Some (utf8 u, r)
        end
      else Some (utf8 u, r)
  end.

(** [scanstring], from just after the opening quote. *)
Fixpoint scan_string (fuel : nat) (s : string) : option (string * string) :=
  match fuel with
  | O => None
  | S fuel' =>
      match s with
      | EmptyString => None
      | String "034"%char r => Some (EmptyString, r)
      | String "\"%char (String "u"%char r) =>
          match scan_unicode r with
          | None => None
          | Some (ch, r') =>
              match scan_string fuel' r' with
              | None => None
              | Some (t, r'') => Some (ch +:+ t, r'')
              end
          end
      | String "\"%char (String e r) =>
          match backslash e with
          | None => None
          | Some ch =>
              match scan_string fuel' r with
              | None => None
              | Some (t, r') => Some (String ch t, r')
              end
          end
      | String "\"%char EmptyString => None
      | String c r =>
          if (N_of_ascii c <? 32)%N then None
          else match scan_string fuel' r with
               | None => None
               | Some (t, r') => Some (String c t, r')
               end
      end
  end.

(** [dict(pairs)]: a later value for a key replaces the earlier one, the
    key keeping its place. *)
Fixpoint dict_set (key : string) (v : json) (d : list (string * json))
  : list (string * json) :=
  match d with
  | [] => [(key, v)]
  | (k, w) :: d' =>
      if String.eqb k key then (k, v) :: d' else (k, w) :: dict_set key v d'
  end.

(** The loop of [JSONArray], at the start of a value. *)
Fixpoint scan_items (scan : string -> option (json * string))
    (fuel : nat) (s : string) : option (list json * string) :=
  match fuel with
  | O => None
  | S fuel' =>
      match scan s with
      | None => None
      | Some (v, r) =>
          match skip_ws r with
          | String "]"%char r' => Some ([v], r')
          | String ","%char r' =>
              match scan_items scan fuel' (skip_ws r') with
              | None => None
              | Some (vs, r'') => Some (v :: vs, r'')
              end
          | _ => None
          end
      end
  end.

(** The loop of [JSONObject], just after the opening quote of a key;
    [pairs] holds the members read so far. *)
Fixpoint scan_members (scan : string -> option (json * string))
    (fuel : nat) (pairs : list (string * json)) (s : string)
  : option (list (string * json) * string) :=
  match fuel with
  | O => None
  | S fuel' =>
      match scan_string (String.length s) s with
      | None => None
      | Some (key, r) =>
          match skip_ws r with
          | String ":"%char r1 =>
              match scan (skip_ws r1) with
              | None => None
              | Some (v, r2) =>
                  let pairs := dict_set key v pairs in
                  match skip_ws r2 with
                  | String "}"%char r3 => Some (pairs, r3)
                  | String ","%char r3 =>
                      match skip_ws r3 with
                      | String "034"%char r4 => scan_members scan fuel' pairs r4
                      | _ => None
                      end
                  | _ => None
                  end
              end
          | _ => None
          end
      end
  end.

(** [scan_once]: one value at the start of [s]. *)
Fixpoint scan_once (fuel : nat) (s : string) : option (json * string) :=
  match fuel with
  | O => None
  | S fuel' =>
      match s with
      | String "034"%char r =>
          match scan_string (String.length r) r with
          | None => None
          | Some (t, r') => Some (JStr t, r')
          end
      | String "{"%char r =>
          match skip_ws r with
          | String "}"%char r' => Some (JObj [], r')
          | String "034"%char r' =>
              match scan_members (scan_once fuel') fuel' [] r' with
              | None => None
              | Some (ms, r'') => Some (JObj ms, r'')
              end
          | _ => None
          end
      | String "["%char r =>
          match skip_ws r with
          | String "]"%char r' => Some (JArr [], r')
          | r' =>
              match scan_items (scan_once fuel') fuel' r' with
              | None => None
              | Some (vs, r'') => Some (JArr vs, r'')
              end
          end
      | _ =>
          if String.prefix "null" s then Some (JNull, Py.slice_from s 4)
          else if String.prefix "true" s then Some (JBool true, Py.slice_from s 4)
          else if String.prefix "false" s then Some (JBool false, Py.slice_from s 5)
          else match scan_number s with
               | Some (lit, r) => Some (JNum lit, r)
               | None =>
                   if String.prefix "NaN" s then Some (JNum "NaN", Py.slice_from s 3)
                   else if String.prefix "Infinity" s
                   then Some (JNum "Infinity", Py.slice_from s 8)
                   else if String.prefix "-Infinity" s
                   then Some (JNum "-Infinity", Py.slice_from s 9)
                   else None
               end
      end
  end.

(** [json.loads(s)]: one value between optional white space and nothing
    else; a text that starts with a byte order mark is refused.  The
    scanners recurse on a fuel; each call consumes a character, and the
    fuel given here is the length of the text plus one. *)
Definition loads (s : string) : outcome json :=
  if String.prefix (String (byte 239) (String (byte 187) (String (byte 191) EmptyString))) s
  then Raises JSONDecodeError
  else
    match scan_once (S (String.length s)) (skip_ws s) with
    | Some (v, r) =>
        match skip_ws r with
        | EmptyString => Returns v
        | _ => Raises JSONDecodeError
        end
    | None => Raises JSONDecodeError
    end.

End Json.

(** ** The outside world

    The agent talks to a completion service, to two search engines over
    HTTP and to a vector store.  [W] is the state of that world; each
    service answers from it and moves it on, and may raise. *)

Definition M (W A : Type) : Type := W -> outcome A * W.

Definition ret {W A} (a : A) : M W A := fun w => (Returns a, w).

Definition raise {W A} (e : exn) : M W A := fun w => (Raises e, w).

Definition bind {W A B} (m : M W A) (k : A -> M W B) : M W B :=
  fun w =>
    match m w with
    | (Returns a, w') => k a w'
    | (Raises e, w') => (Raises e, w')
    end.

(** [try: m  except Exception as e: handler(e)] *)
Definition try_except {W A} (m : M W A) (handler : exn -> M W A) : M W A :=
  fun w =>
    match m w with
    | (Returns a, w') => (Returns a, w')
    | (Raises e, w') => handler e w'
    end.

(** A computation that does not touch the world. *)
Definition lift {W A} (o : outcome A) : M W A := fun w => (o, w).

(** A service that cannot raise. *)
Definition ask {W A} (f : W -> A * W) : M W A :=
  fun w => let '(a, w') := f w in (Returns a, w').

(** The [x ← m; k] notation of stdpp, for calls that may raise and for
    calls into the world. *)
#[export] Instance outcome_bind : MBind outcome := fun A B k o => obind o k.
#[export] Instance outcome_ret : MRet outcome := fun A a => Returns a.
#[export] Instance outcome_fmap : FMap outcome := fun A B f o =>
  match o with
  | Returns a => Returns (f a)
  | Raises e => Raises e
  end.
#[export] Instance M_bind {W} : MBind (M W) := fun A B k m => bind m k.
#[export] Instance M_ret {W} : MRet (M W) := fun A a => ret a.

(** [openai_client.chat.completions.create(model=..., messages=...,
    temperature=..., max_tokens=...)]; the temperature is kept as the
    decimal literal of the call. *)
Record chat_request : Type := {
  model : string;
  messages : list (string * string);
  temperature : string;
  max_tokens : option Z
}.

(** A completion, seen through [response.choices[i].message.content], which
    is a [str] or [None]. *)
Record chat_response : Type := {
  choices : list (option string)
}.

(** An [<a>] (or any tag) seen through [get_text()] and [get('href')]. *)
Record tag : Type := {
  get_text : string;
  href : option string
}.

(** A [div] of class [result] of the first engine, seen through the two
    [find] calls of the parser ([None] when the element is absent). *)
Record ddg_div : Type := {
  result__a : option tag;
  result__snippet : option tag
}.

(** A [div] of class [g] of the second engine, seen through
    [find('h3')], [find('a')] and [find('span', {'data-ved': True})]. *)
Record google_div : Type := {
  find_h3 : option tag;
  find_a : option tag;
  find_span : option tag
}.

(** An HTTP response: its status and, for its body once parsed by
    [BeautifulSoup], what the two [find_all] calls select.  The request
    itself is its URL; the headers and the timeout never change. *)
Record http_response : Type := {
  status_code : Z;
  divs_result : list ddg_div;
  divs_g : list google_div
}.

(** The metadata stored with a summary. *)
Record metadata : Type := {
  meta_research_id : string;
  meta_question : string;
  meta_timestamp : string;
  meta_source_count : Z
}.

(** The arguments of [collection.add]. *)
Record add_request : Type := {
  documents : list string;
  metadatas : list metadata;
  ids : list string
}.

(** The services behind [self], and the two functions of [urllib.parse]
    that the parsers call, which are library code and pure ([Urllib] below
    gives them for text in UTF-8).  [QueryResult] is what
    [collection.query] returns.  A body that [BeautifulSoup] cannot parse
    counts as a request that raised. *)
Record Services (W QueryResult : Type) : Type := {
  uuid4 : W -> string * W;
  datetime_now : W -> string * W;
  chat_completions_create : chat_request -> M W chat_response;
  requests_get : string -> M W http_response;
  collection_add : add_request -> M W unit;
  collection_query : list string -> Z -> M W QueryResult;
  quote_plus : string -> outcome string;
  parse_qs : string -> gmap string (list string)
}.

Arguments uuid4 {W QueryResult} _ _.
Arguments datetime_now {W QueryResult} _ _.
Arguments chat_completions_create {W QueryResult} _ _ _.
Arguments requests_get {W QueryResult} _ _ _.
Arguments collection_add {W QueryResult} _ _ _.
Arguments collection_query {W QueryResult} _ _ _ _.
Arguments quote_plus {W QueryResult} _ _.
Arguments parse_qs {W QueryResult} _ _.

(** A [Source] of the response. *)
Record Source : Type := {
  id : Z;
  title : string;
  url : string;
  snippet : string
}.

(** The [dict] that [conduct_research] returns. *)
Record Response : Type := {
  question : string;
  sub_questions : json;
  summary : string;
  sources : list Source;
  research_id : string
}.

(** What [get_similar_research] returns: the query result, or [[]]. *)
Inductive similar (QueryResult : Type) : Type :=
  | Similar (results : QueryResult)
  | EmptyList.

Arguments Similar {QueryResult} results.
Arguments EmptyList {QueryResult}.

(** ** The agent *)

Section ResearchAgent.

Context {W QueryResult : Type} (self : Services W QueryResult).

(** [for x in l: acc = await body(acc, x)] *)
Fixpoint for_each {A B} (body : B -> A -> M W B) (l : list A) (acc : B)
  : M W B :=
  match l with
  | [] => ret acc
  | x :: l' => acc' ← body acc x; for_each body l' acc'
  end.

(** [response.choices[0].message.content], on which [strip] is then
    called: no choice is an [IndexError], the content [None] an
    [AttributeError]. *)
Definition message_content (response : chat_response) : outcome string :=
  match choices response with
  | [] => Raises IndexError
  | None :: _ => Raises AttributeError
  | Some content :: _ => Returns content
  end.

(** *** The question decomposer *)

Definition break_down_prompt (question : string) : string :=
  Py.join Py.nl
    [ "";
      "        Break down this research question into 3-5 specific sub-questions that would help provide a comprehensive answer:";
      "        ";
      "        Main Question: " +:+ question;
      "        ";
      "        Return only a JSON list of sub-questions, no other text:";
      "        " ].

Definition break_down_request (question : string) : chat_request :=
  {| model := "gpt-4"; messages := [("user", break_down_prompt question)];
     temperature := "0.3"; max_tokens := None |}.

(** The reply stripped, and freed of its code fence when it starts with
    one. *)
Definition extract_json (content : string) : string :=
  let content := Py.strip content in
  if Py.startswith content "```json"
  then Py.strip (Py.replace (Py.replace content "```json" "") "```" "")
  else content.

Definition _break_down_question (question : string) : M W json :=
  try_except
    (response ← chat_completions_create self (break_down_request question);
     content ← lift (message_content response);
     let content := extract_json content in
     sub_questions ← lift (Json.loads content);
     ret sub_questions)
    (fun e => ret (JArr [JStr question])).

(** *** The search tiers *)

(** The [dict] literal that both parsers append. *)
Definition search_result (title link snippet source query : string)
  : gmap string string :=
  {[ "title" := title; "link" := link; "snippet" := snippet;
     "source" := source; "query" := query ]}.

(** [link.split('/')[2] if '//' in link else link] *)
Definition source_of_link (link : string) : outcome string :=
  if Py.contains "//" link then
    match Py.split "/" link !! 2%nat with
    | Some host => Returns host
    | None => Raises IndexError
    end
  else Returns link.

(** The unwrapping of a redirect link of the first engine. *)
Definition unwrap_redirect (link : string) : outcome string :=
  if Py.startswith link "/l/?" then
    let parsed := parse_qs self (Py.slice_from link 4) in
    match parsed !! "uddg" with
    | Some values =>
        match values with
        | v :: _ => Returns v
        | [] => Raises IndexError
        end
    | None => Returns link
    end
  else Returns link.

(** The body of the loop of [_search_web] over one [div]: the record to
    append, or [None] when an element is missing. *)
Definition parse_ddg_div (query : string) (result : ddg_div)
  : outcome (option (gmap string string)) :=
  match result__a result, result__snippet result with
  | Some title_elem, Some snippet_elem =>
      let title := Py.strip (get_text title_elem) in
      let link := default "" (href title_elem) in
      let snippet := Py.strip (get_text snippet_elem) in
      link ← unwrap_redirect link;
      source ← source_of_link link;
      Returns (Some (search_result title link snippet source query))
  | _, _ => Returns None
  end.

(** The body of the loop of [_fallback_search] over one [div]. *)
Definition parse_google_div (query : string) (result : google_div)
  : outcome (option (gmap string string)) :=
  match find_h3 result, find_a result with
  | Some title_elem, Some link_elem =>
      let title := Py.strip (get_text title_elem) in
      let link := default "" (href link_elem) in
      let snippet :=
        match find_span result with
        | Some snippet_elem => Py.strip (get_text snippet_elem)
        | None => "No description available"
        end in
      source ← source_of_link link;
      Returns (Some (search_result title link snippet source query))
  | _, _ => Returns None
  end.

(** A parsing loop: a [div] whose body raises is skipped ([continue]). *)
Definition parse_divs {A} (parse : A -> outcome (option (gmap string string)))
    (results : list A) : list (gmap string string) :=
  omap (fun result =>
          match parse result with
          | Returns appended => appended
          | Raises _ => None
          end) results.

(** [response.raise_for_status()] *)
Definition raise_for_status (response : http_response) : outcome unit :=
  if (400 <=? status_code response) && (status_code response <? 600)
  then Raises (HTTPError (status_code response))
  else Returns tt.

(** The second tier up to its own results: [Some] of them when the
    [return] inside the [try] is reached, [None] when control falls
    through to the mock generator. *)
Definition google_results (query : string) (max_results : Z)
  : M W (option (list (gmap string string))) :=
  try_except
    (quoted ← lift (quote_plus self query);
     let search_url := "https://www.google.com/search?q=" +:+ quoted in
     response ← requests_get self search_url;
     if status_code response =? 200 then
       let results := Py.slice_to (divs_g response) max_results in
       let search_results := parse_divs (parse_google_div query) results in
       match search_results with
       | [] => ret None
       | _ :: _ => ret (Some search_results)
       end
     else ret None)
    (fun _ => ret None).

Definition _fallback_search (query : string) (max_results : Z)
  : M W (list (gmap string string)) :=
  found ← google_results query max_results;
  match found with
  | Some search_results => ret search_results
  | None => lift (_generate_mock_results query max_results)
  end.

(** The first tier up to its own results: the [try] body of
    [_search_web] before the test [if not search_results]. *)
Definition ddg_results (query : string) (max_results : Z)
  : M W (list (gmap string string)) :=
  quoted ← lift (quote_plus self query);
  let search_url := "https://html.duckduckgo.com/html/?q=" +:+ quoted in
  response ← requests_get self search_url;
  _ ← lift (raise_for_status response);
  let results := Py.slice_to (divs_result response) max_results in
  ret (parse_divs (parse_ddg_div query) results).

Definition _search_web (query : string) (max_results : Z)
  : M W (list (gmap string string)) :=
  try_except
    (search_results ← ddg_results query max_results;
     match search_results with
     | [] => _fallback_search query max_results
     | _ :: _ => ret search_results
     end)
    (fun e => _fallback_search query max_results).

(** *** The summarizer *)

(** One turn of the loop over [enumerate(search_results)]. *)
Definition add_source (acc : string * list Source)
    (item : Z * gmap string string) : outcome (string * list Source) :=
  let '(context, sources) := acc in
  let '(i, result) := item in
  title ← Py.getitem result "title";
  snippet ← Py.getitem result "snippet";
  link ← Py.getitem result "link";
  Returns
    (context +:+ Py.nl +:+ "[Source " +:+ Py.str_of_int (i + 1) +:+ "] " +:+
       title +:+ Py.nl +:+ snippet +:+ Py.nl +:+ "URL: " +:+ link +:+ Py.nl,
     sources ++ [ {| id := i + 1; title := title; url := link;
                     snippet := snippet |} ]).

Definition summary_prompt (main_question : string)
    (sub_questions : list string) (context : string) : string :=
  Py.join Py.nl
    [ "";
      "        You are a research analyst. Based on the search results below, provide a comprehensive summary ";
      "        that answers this research question: " +:+ main_question;
      "        ";
      "        Sub-questions explored:";
      "        " +:+ Py.join Py.nl ((fun sq => "- " +:+ sq) <$> sub_questions);
      "        ";
      "        Search Results:";
      "        " +:+ context;
      "        ";
      "        Please provide:";
      "        1. A well-structured summary (500-800 words) that addresses the main question";
      "        2. Use specific information from the sources";
      "        3. Maintain objectivity and cite sources using [Source X] format";
      "        4. Structure the response with clear sections/paragraphs";
      "        5. Include key statistics, facts, and findings where available";
      "        ";
      "        Summary:";
      "        " ].

Definition error_summary : string :=
  "Error generating summary. Please try again.".

(** The loop that builds the context and the sources. *)
Definition build_sources (search_results : list (gmap string string))
  : outcome (string * list Source) :=
  ofold add_source (Py.enumerate search_results) ("", []).

Definition summary_request (main_question : string)
    (sub_questions : list string) (context : string) : chat_request :=
  {| model := "gpt-4";
     messages := [("user", summary_prompt main_question sub_questions context)];
     temperature := "0.4"; max_tokens := Some 1500 |}.

Definition _summarize_findings (main_question : string)
    (sub_questions : list string)
    (search_results : list (gmap string string))
  : M W (string * list Source) :=
  '(context, sources) ← lift (build_sources search_results);
  try_except
    (response ← chat_completions_create self
                  (summary_request main_question sub_questions context);
     content ← lift (message_content response);
     let summary := Py.strip content in
     ret (summary, sources))
    (fun e => ret (error_summary, sources)).

(** *** The result store *)

Definition _store_results (research_id question summary : string)
    (sources : list Source) : M W unit :=
  try_except
    (timestamp ← ask (datetime_now self);
     collection_add self
       {| documents := [summary];
          metadatas := [ {| meta_research_id := research_id;
                            meta_question := question;
                            meta_timestamp := timestamp;
                            meta_source_count := Z.of_nat (length sources) |} ];
          ids := [research_id] |})
    (fun e => ret tt).

Definition get_similar_research (question : string) (limit : Z)
  : M W (similar QueryResult) :=
  try_except
    (results ← collection_query self [question] limit;
     ret (Similar results))
    (fun e => ret EmptyList).

(** *** The orchestrator *)

(** What [for sub_q in sub_questions] goes through: the elements of a
    list, the characters of a [str], the keys of a [dict]; anything else
    is not iterable. *)
Definition iterate (v : json) : outcome (list json) :=
  match v with
  | JArr items => Returns items
  | JStr s => Returns (JStr <$> Py.chars s)
  | JObj members => Returns ((fun m => JStr m.1) <$> members)
  | JNull | JBool _ | JNum _ => Raises TypeError
  end.

(** The body of the search loop.  The cap [max_results // len(...)] is
    evaluated first.  A [sub_q] that is not a [str] makes [quote_plus]
    raise in both tiers, which is caught, and then [query.lower()] raise
    an [AttributeError] in the mock generator, which is not. *)
Definition search_sub_question (max_results : Z) (len : nat)
    (all_search_results : list (gmap string string)) (sub_q : json)
  : M W (list (gmap string string)) :=
  cap ← lift (Py.floordiv max_results (Z.of_nat len));
  match sub_q with
  | JStr query =>
      results ← _search_web query cap;
      ret (all_search_results ++ results)
  | _ => raise AttributeError
  end.

(** The [str] items of an iteration. *)
Definition strs (items : list json) : list string :=
  omap (fun v => match v with JStr s => Some s | _ => None end) items.

Definition conduct_research (question : string) (max_results : Z)
  : M W Response :=
  research_id ← ask (uuid4 self);
  sub_questions ← _break_down_question question;
  items ← lift (iterate sub_questions);
  all_search_results ←
    for_each (search_sub_question max_results (length items)) items [];
  '(summary, sources) ←
    _summarize_findings question (strs items) all_search_results;
  _ ← _store_results research_id question summary sources;
  ret {| question := question; sub_questions := sub_questions;
         summary := summary; sources := sources;
         research_id := research_id |}.

End ResearchAgent.

(** ** [urllib.parse]

    [quote_plus] and [parse_qs] on text that is valid UTF-8, where decoding
    the unquoted bytes changes nothing. *)

Module Urllib.

Definition hex_digit (n : nat) : ascii :=
  ascii_of_nat (if (n <? 10)%nat then 48 + n else 55 + n).

(** The characters [quote] never escapes: letters, digits and [_.-~]. *)
Definition always_safe (c : ascii) : bool :=
  let n := nat_of_ascii c in
  (((48 <=? n) && (n <=? 57)) || ((65 <=? n) && (n <=? 90)) ||
   ((97 <=? n) && (n <=? 122)) ||
   (n =? 95) || (n =? 46) || (n =? 45) || (n =? 126))%nat.

Fixpoint quote_plus (s : string) : string :=
  match s with
  | EmptyString => EmptyString
  | String c s' =>
      if always_safe c then String c (quote_plus s')
      else if Ascii.eqb c " " then String "+" (quote_plus s')
      else
        let n := nat_of_ascii c in
        String "%" (String (hex_digit (n / 16)) (String (hex_digit (n mod 16))
          (quote_plus s')))
  end.

(** [unquote] after [replace('+', ' ')]: a percent sign followed by two
    hexadecimal digits is the byte they write, and stays otherwise. *)
Fixpoint unquote_plus (skip : nat) (s : string) : string :=
  match s with
  | EmptyString => EmptyString
  | String c s' =>
      match skip with
      | S k => unquote_plus k s'
      | O =>
          match c, s' with
          | "%"%char, String h (String l _) =>
              match Json.hex_val h, Json.hex_val l with
              | Some x, Some y =>
                  String (ascii_of_N (x * 16 + y)) (unquote_plus 2 s')
              | _, _ => String c (unquote_plus 0 s')
              end
          | "+"%char, _ => String " " (unquote_plus 0 s')
          | _, _ => String c (unquote_plus 0 s')
          end
      end
  end.

(** [name_value.split('=', 1)] when it has two parts. *)
Fixpoint split_pair (s : string) : option (string * string) :=
  match s with
  | EmptyString => None
  | String c s' =>
      if Ascii.eqb c "=" then Some (EmptyString, s')
      else match split_pair s' with
           | Some (n, v) => Some (String c n, v)
           | None => None
           end
  end.

(** [parse_qs(qs)]: the fields are separated by [&]; a field without [=]
    or with a blank value is dropped; the values of a name are kept in
    their order. *)
Definition parse_qs (qs : string) : gmap string (list string) :=
  foldl (fun parsed name_value =>
           match split_pair name_value with
           | Some (name, String c v) =>
               let name := unquote_plus 0 name in
               let value := unquote_plus 0 (String c v) in
               <[name := default [] (parsed !! name) ++ [value]]> parsed
           | _ => parsed
           end)
        ∅ (Py.split "&" qs).

End Urllib.

(** ** A scripted world

    A world for running the agent on concrete inputs: the completion
    service and the web answer from two scripts, one answer a call, and
    are unavailable once their script is exhausted; the vector store keeps
    what is added, or is down. *)

Record world : Type := {
  completions : list (outcome chat_response);
  pages : list (outcome http_response);
  store : option (list add_request);
  clock : Z
}.

Definition scripted : Services world (list string) := {|
  uuid4 := fun w =>
    ("research-" +:+ Py.str_of_int (clock w),
     {| completions := completions w; pages := pages w; store := store w;
        clock := clock w + 1 |});
  datetime_now := fun w =>
    ("T" +:+ Py.str_of_int (clock w),
     {| completions := completions w; pages := pages w; store := store w;
        clock := clock w + 1 |});
  chat_completions_create := fun _ w =>
    match completions w with
    | [] => (Raises (ServiceError "completion service unavailable"), w)
    | r :: rest =>
        (r, {| completions := rest; pages := pages w; store := store w;
               clock := clock w |})
    end;
  requests_get := fun _ w =>
    match pages w with
    | [] => (Raises (ServiceError "connection refused"), w)
    | r :: rest =>
        (r, {| completions := completions w; pages := rest; store := store w;
               clock := clock w |})
    end;
  collection_add := fun request w =>
    match store w with
    | None => (Raises (ServiceError "vector store unavailable"), w)
    | Some added =>
        (Returns tt,
         {| completions := completions w; pages := pages w;
            store := Some (added ++ [request]); clock := clock w |})
    end;
  collection_query := fun _ n_results w =>
    match store w with
    | None => (Raises (ServiceError "vector store unavailable"), w)
    | Some added =>
        (Returns (Py.slice_to (added ≫= documents) n_results), w)
    end;
  quote_plus := fun s => Returns (Urllib.quote_plus s);
  parse_qs := Urllib.parse_qs
|}.

(** A world where nothing answers: no completion, no page, no store. *)
Definition offline : world :=
  {| completions := []; pages := []; store := None; clock := 0 |}.

(** The text of a JSON array of strings that need no escape. *)
Definition json_array (l : list string) : string :=
  let quote := String "034"%char EmptyString in
  "[" +:+ Py.join ", " ((fun s => quote +:+ s +:+ quote) <$> l) +:+ "]".

(** The completion whose only choice has the content [s]. *)
Definition reply (s : string) : outcome chat_response :=
  Returns {| choices := [Some s] |}.

(** Two records as the parsers make them. *)
Definition two_results : list (gmap string string) :=
  [ search_result "Climate Change | US EPA" "https://www.epa.gov/climatechange"
      "Overview of climate change." "www.epa.gov" "climate";
    search_result "Global Warming - NASA" "https://climate.nasa.gov/"
      "Vital signs of the planet." "climate.nasa.gov" "climate" ].

(** A page of the first engine: a result behind a redirect link, a result
    without snippet, and a result with a direct link. *)
Definition ddg_page : http_response :=
  {| status_code := 200;
     divs_result :=
       [ {| result__a :=
              Some {| get_text := "  Climate Change | US EPA ";
                      href := Some "/l/?kh=-1&uddg=https%3A%2F%2Fwww.epa.gov%2Fclimatechange" |};
            result__snippet :=
              Some {| get_text := "Overview of climate change."; href := None |} |};
         {| result__a := Some {| get_text := "An advertisement"; href := None |};
            result__snippet := None |};
         {| result__a :=
              Some {| get_text := "Global Warming - NASA";
                      href := Some "https://climate.nasa.gov/" |};
            result__snippet :=
              Some {| get_text := "Vital signs of the planet."; href := None |} |} ];
     divs_g := [] |}.

(** A page of the second engine with one result. *)
Definition google_page : http_response :=
  {| status_code := 200;
     divs_result := [];
     divs_g :=
       [ {| find_h3 := Some {| get_text := "IPCC"; href := None |};
            find_a := Some {| get_text := "IPCC"; href := Some "https://www.ipcc.ch/reports/" |};
            find_span := None |} ] |}.

(** A world that serves the given completions and pages, with the store up
    and empty. *)
Definition serving (replies : list (outcome chat_response))
    (served : list (outcome http_response)) : world :=
  {| completions := replies; pages := served; store := Some []; clock := 0 |}.

(** The link and the source of each record of a search. *)
Definition links_and_sources (o : outcome (list (gmap string string)))
  : outcome (list (option string * option string)) :=
  fmap (M := list) (fun r => (r !! "link", r !! "source")) <$> o.

(** The link and the source of the record that a parser appends. *)
Definition link_and_source (o : outcome (option (gmap string string)))
  : option (option string * option string) :=
  match o with
  | Returns (Some r) => Some (r !! "link", r !! "source")
  | _ => None
  end.

(** ** Properties stated over the embedding *)

(** A record with the four fields present and non-empty. *)
Definition populated (r : gmap string string) : Prop :=
  ∃ title link snippet source,
    r !! "title" = Some title ∧ r !! "link" = Some link ∧
    r !! "snippet" = Some snippet ∧ r !! "source" = Some source ∧
    title ≠ "" ∧ link ≠ "" ∧ snippet ≠ "" ∧ source ≠ "".

(** A canned record as the [topics] literal has them: no link, the three
    other fields present and non-empty. *)
Definition canned_record (c : gmap string string) : Prop :=
  c !! "link" = None ∧
  ∃ title snippet source,
    c !! "title" = Some title ∧ c !! "snippet" = Some snippet ∧
    c !! "source" = Some source ∧
    title ≠ "" ∧ snippet ≠ "" ∧ source ≠ "".

(** What the closing loop of the mock generator makes of a canned record:
    the query is added, and the link is made from the source. *)
Definition completes (query : string) (canned r : gmap string string) : Prop :=
  ∃ source,
    canned !! "source" = Some source ∧
    r = <["link" := "https://" +:+ source]> (<["query" := query]> canned).

(** A record that the summarizer can cite: the three keys it reads. *)
Definition citable (r : gmap string string) : Prop :=
  is_Some (r !! "title") ∧ is_Some (r !! "snippet") ∧ is_Some (r !! "link").

(** What a search may return under a cap: records that can be cited, and
    no more of them than the cap when the cap is not negative. *)
Definition within (max_results : Z) (results : list (gmap string string)) : Prop :=
  Forall citable results ∧
  (0 ≤ max_results → Z.of_nat (length results) ≤ max_results).

(** The sources that belong to a list of results: as many, the [i]-th
    numbered [i + 1] and holding the title, link and snippet of the [i]-th
    result. *)
Definition sources_of (search_results : list (gmap string string))
    (sources : list Source) : Prop :=
  length sources = length search_results ∧
  ∀ (i : nat) r, search_results !! i = Some r →
    ∃ s, sources !! i = Some s ∧ id s = Z.of_nat i + 1 ∧
         r !! "title" = Some (title s) ∧ r !! "link" = Some (url s) ∧
         r !! "snippet" = Some (snippet s).

(** The link's host as the specification words it: what follows the first
    scheme delimiter, up to the next slash; the link itself when it has no
    delimiter. *)
Fixpoint after_delimiter (link : string) : option string :=
  match link with
  | EmptyString => None
  | String c link' =>
      match link' with
      | EmptyString => None
      | String d rest =>
          if Ascii.eqb c "/" && Ascii.eqb d "/" then Some rest
          else after_delimiter link'
      end
  end.

Fixpoint up_to_slash (s : string) : string :=
  match s with
  | EmptyString => EmptyString
  | String c s' =>
      if Ascii.eqb c "/" then EmptyString else String c (up_to_slash s')
  end.

Definition host_component (link : string) : string :=
  match after_delimiter link with
  | Some rest => up_to_slash rest
  | None => link
  end.

(** The first slash of the link starts a doubled one, as in
    [scheme://host/path] and in [//host/path]. *)
Fixpoint first_slash_doubled (link : string) : bool :=
  match link with
  | EmptyString => false
  | String c link' =>
      if Ascii.eqb c "/" then
        match link' with
        | String d _ => Ascii.eqb d "/"
        | EmptyString => false
        end
      else first_slash_doubled link'
  end.

Section Properties.

Context {W QueryResult : Type} (self : Services W QueryResult).

(** What the model answered to the decomposition prompt, parsed: it
    raises when the call raises, when the reply has no content, and when
    the content is not JSON. *)
Definition parsed_reply (question : string) (w : W) : outcome json :=
  match (chat_completions_create self (break_down_request question) w).1 with
  | Returns response =>
      content ← message_content response;
      Json.loads (extract_json content)
  | Raises e => Raises e
  end.

(** The searches of a fan-out: one call of [_search_web] for each
    sub-question, in their order, each with the same cap, the world
    going from one call to the next. *)
Inductive fan_out (cap : Z)
  : list string → W → list (list (gmap string string)) → W → Prop :=
  | fan_out_nil w : fan_out cap [] w [] w
  | fan_out_cons sub_q sub_qs w results w1 rest w2 :
      _search_web self sub_q cap w = (Returns results, w1) →
      fan_out cap sub_qs w1 rest w2 →
      fan_out cap (sub_q :: sub_qs) w (results :: rest) w2.

(** The same services with another vector store behind [collection.add]. *)
Definition with_collection_add (add : add_request → M W unit)
  : Services W QueryResult :=
  {| uuid4 := uuid4 self;
     datetime_now := datetime_now self;
     chat_completions_create := chat_completions_create self;
     requests_get := requests_get self;
     collection_add := add;
     collection_query := collection_query self;
     quote_plus := quote_plus self;
     parse_qs := parse_qs self |}.

(** What [conduct_research] does once the searches are done. *)
Definition after_search (research_id question : string) (sub_questions : json)
    (items : list string) (all_search_results : list (gmap string string))
  : M W Response :=
  '(summary, sources) ←
    _summarize_findings self question items all_search_results;
  _ ← _store_results self research_id question summary sources;
  ret {| question := question; sub_questions := sub_questions;
         summary := summary; sources := sources;
         research_id := research_id |}.

End Properties.

(** Unfolds the computations in the world down to their matches. *)
Ltac run :=
  unfold mbind, M_bind, bind, mret, M_ret, ret, raise, lift, ask, try_except in *.

(** ** The endpoint and the server starter

    [main.py] hands a request body to the agent; [start_server.py] picks
    the port to serve on. *)

(** A value that is a [str]. *)
Definition is_JStr (v : json) : Prop := ∃ s, v = JStr s.

(** A record as every tier makes them: the five keys, the query being the
    one searched for. *)
Definition record_of (query : string) (r : gmap string string) : Prop :=
  is_Some (r !! "title") ∧ is_Some (r !! "link") ∧ is_Some (r !! "snippet") ∧
  is_Some (r !! "source") ∧ r !! "query" = Some query.

(** The body of a request as the [ResearchQuery] model delivers it:
    [max_results] is an [Optional[int]], and an explicit null stays
    [None]. *)
Record ResearchQuery : Type := {
  query_question : string;
  query_max_results : option Z
}.

(** What the handler of [POST /api/research] does: it returns the result,
    or raises [HTTPException(status_code=500, detail=str(e))]. *)
Inductive handled : Type :=
  | Result (result : Response)
  | HTTPException (status : Z) (detail : exn).

Section Endpoint.

Context {W QueryResult : Type} (self : Services W QueryResult).

(** The body of the search loop when [max_results] may be [None]:
    [None // n] is a [TypeError]. *)
Definition search_sub_question_opt (max_results : option Z) (len : nat)
    (all_search_results : list (gmap string string)) (sub_q : json)
  : M W (list (gmap string string)) :=
  cap ← lift (match max_results with
              | Some m => Py.floordiv m (Z.of_nat len)
              | None => Raises TypeError
              end);
  match sub_q with
  | JStr query =>
      results ← _search_web self query cap;
      ret (all_search_results ++ results)
  | _ => raise AttributeError
  end.

(** [conduct_research] as the endpoint calls it. *)
Definition conduct_research_opt (question : string) (max_results : option Z)
  : M W Response :=
  research_id ← ask (uuid4 self);
  sub_questions ← _break_down_question self question;
  items ← lift (iterate sub_questions);
  all_search_results ←
    for_each (search_sub_question_opt max_results (length items)) items [];
  '(summary, sources) ←
    _summarize_findings self question (strs items) all_search_results;
  _ ← _store_results self research_id question summary sources;
  ret {| question := question; sub_questions := sub_questions;
         summary := summary; sources := sources;
         research_id := research_id |}.

(** The handler [conduct_research] of [main.py]. *)
Definition api_conduct_research (query : ResearchQuery) : M W handled :=
  try_except
    (result ← conduct_research_opt (query_question query)
                (query_max_results query);
     ret (Result result))
    (fun e => ret (HTTPException 500 e)).

End Endpoint.

(** What binding a socket to a port comes to: it is bound, or an [OSError]
    is raised (by [socket.socket] or by [bind]), or something else is. *)
Inductive bind_outcome : Type :=
  | Bound
  | OSError
  | Unexpected (e : exn).

(** The [ports_to_try] of [find_free_port]. *)
Definition ports_to_try : list Z :=
  [8888; 9000; 9001; 9002; 5000; 5001; 4000; 4001].

Section Ports.

Context {W : Type} (socket_bind : Z → W → bind_outcome * W).

(** The loop over the ports: the port bound first, or [None] when the
    loop runs out. *)
Fixpoint probe (ports : list Z) : M W (option Z) :=
  match ports with
  | [] => ret None
  | port :: ports' =>
      fun w =>
        match socket_bind port w with
        | (Bound, w') => (Returns (Some port), w')
        | (OSError, w') => probe ports' w'
        | (Unexpected e, w') => (Raises e, w')
        end
  end.

Definition find_free_port : M W Z :=
  found ← probe ports_to_try;
  match found with
  | Some port => ret port
  | None => ret 8888
  end.

(** Every port of the list, tried in turn, raised an [OSError]. *)
Inductive all_busy : list Z → W → W → Prop :=
  | all_busy_nil w : all_busy [] w w
  | all_busy_cons port ports w w1 w2 :
      socket_bind port w = (OSError, w1) →
      all_busy ports w1 w2 →
      all_busy (port :: ports) w w2.

End Ports.

(** ** Scenarios *)

(** The text of a JSON string that needs no escape. *)
Definition quoted (s : string) : string :=
  String "034"%char s +:+ String "034"%char EmptyString.

(** A reply in a JSON code fence, and a reply in a bare one. *)
Definition fenced (body : string) : string :=
  "```json" +:+ Py.nl +:+ body +:+ Py.nl +:+ "```".

Definition bare_fenced (body : string) : string :=
  "```" +:+ Py.nl +:+ body +:+ Py.nl +:+ "```".

(** An error page that holds the results of another page. *)
Definition with_status (status : Z) (page : http_response) : http_response :=
  {| status_code := status; divs_result := divs_result page;
     divs_g := divs_g page |}.

(** Sockets of a machine where the ports of [busy] are taken; the world is
    the list of the ports tried so far. *)
Definition bind_unless (busy : list Z) (port : Z) (tried : list Z)
  : bind_outcome * list Z :=
  (if bool_decide (port ∈ busy) then OSError else Bound, tried ++ [port]).

(** * Proofs *)

(** ** Slices and ranges *)

Lemma slice_to_nonneg {A} (l : list A) (n : Z) :
  0 ≤ n → Py.slice_to l n = take (Z.to_nat n) l.
Proof.
  intros Hn. unfold Py.slice_to.
  destruct (Z.leb_spec 0 n); [done | lia].
Qed.

Lemma slice_to_prefix {A} (l : list A) (n : Z) :
  ∃ k, Py.slice_to l n = take k l.
Proof. unfold Py.slice_to. destruct (0 <=? n); eauto. Qed.

Lemma length_slice_to {A} (l : list A) (n : Z) :
  0 ≤ n → Z.of_nat (length (Py.slice_to l n)) ≤ n.
Proof.
  intros Hn. rewrite slice_to_nonneg by done. rewrite length_take. lia.
Qed.

Lemma slice_to_nonempty {A} (l : list A) (n : Z) :
  0 < n → l ≠ [] → Py.slice_to l n ≠ [].
Proof.
  intros Hn Hl. rewrite slice_to_nonneg by lia.
  destruct l as [|x l]; [done |].
  destruct (Z.to_nat n) as [|k] eqn:Hk; [lia | done].
Qed.

Lemma length_range (n : Z) : length (Py.range n) = Z.to_nat n.
Proof. unfold Py.range. by rewrite length_fmap, length_seq. Qed.

(** ** The mock result generator *)

Lemma complete_result_linked (query : string) (r : gmap string string) :
  is_Some (r !! "link") →
  complete_result query r = Returns (<["query" := query]> r).
Proof.
  intros [l Hl]. unfold complete_result.
  rewrite lookup_insert_ne by done. by rewrite Hl.
Qed.

Lemma complete_result_canned (query : string) (r : gmap string string) source :
  r !! "link" = None → r !! "source" = Some source →
  complete_result query r =
    Returns (<["link" := "https://" +:+ source]> (<["query" := query]> r)).
Proof.
  intros Hl Hs. unfold complete_result, Py.getitem.
  rewrite !lookup_insert_ne by done. by rewrite Hl, Hs.
Qed.

(** The closing loop is a map as long as every record has a link or a
    source. *)
Lemma closing_loop_from (query : string) (l acc : list (gmap string string)) :
  Forall (fun r => is_Some (r !! "link") ∨ is_Some (r !! "source")) l →
  ∃ l',
    ofold (fun completed result =>
             obind (complete_result query result) (fun result' =>
             Returns (completed ++ [result']))) l acc = Returns (acc ++ l') ∧
    Forall2 (fun r r' => complete_result query r = Returns r') l l'.
Proof.
  intros Hl. revert acc. induction Hl as [|r l Hr _ IH]; intros acc.
  - exists []. simpl. by rewrite app_nil_r.
  - assert (∃ r', complete_result query r = Returns r') as [r' Hr'].
    { destruct (r !! "link") as [lk|] eqn:Hlk.
      - eexists. by apply complete_result_linked.
      - destruct Hr as [[? ?]|[s Hs]]; [done |].
        eexists. by apply complete_result_canned. }
    destruct (IH (acc ++ [r'])) as (l' & Hfold & Hall).
    exists (r' :: l'). split.
    + simpl. rewrite Hr'. simpl. rewrite Hfold. by rewrite <- app_assoc.
    + by constructor.
Qed.

Lemma closing_loop_canned (query : string) (canned : list (gmap string string)) :
  Forall canned_record canned →
  ∃ results,
    closing_loop query canned = Returns results ∧
    Forall2 (completes query) canned results.
Proof.
  intros Hc.
  destruct (closing_loop_from query canned []) as (l' & Hfold & Hall).
  { eapply Forall_impl; [exact Hc |].
    intros c (_ & t & sn & s & _ & _ & Hs & _). right. by exists s. }
  exists l'. split; [exact Hfold |].
  clear Hfold. induction Hall as [|c r l l' Hr _ IH]; [constructor |].
  apply Forall_cons in Hc as [(Hl & t & sn & s & _ & _ & Hs & _) Hc].
  constructor; [| by apply IH].
  exists s. split; [done |].
  rewrite (complete_result_canned _ _ _ Hl Hs) in Hr. by injection Hr as <-.
Qed.

Lemma closing_loop_generic (query : string) (indices : list Z) :
  closing_loop query (generic_result query <$> indices) =
    Returns ((fun i => <["query" := query]> (generic_result query i)) <$> indices).
Proof.
  destruct (closing_loop_from query (generic_result query <$> indices) [])
    as (l' & Hfold & Hall).
  { apply Forall_fmap, Forall_true. intros i. left. by eexists. }
  unfold closing_loop. rewrite Hfold. f_equal. simpl.
  clear Hfold. revert l' Hall.
  induction indices as [|i indices IH]; intros l' Hall.
  - by apply Forall2_nil_inv_l in Hall as ->.
  - apply Forall2_cons_inv_l in Hall as (r' & l'' & Hr & Hall & ->).
    rewrite complete_result_linked in Hr by by eexists.
    injection Hr as <-. simpl. f_equal. by apply IH.
Qed.

Lemma topics_canned :
  Forall (fun item => Forall canned_record item.2 ∧ item.2 ≠ []) topics.
Proof.
  unfold topics.
  repeat first
    [ apply Forall_nil_2
    | apply Forall_cons_2
    | split; [| discriminate] ];
  (split; [reflexivity |]);
  do 3 eexists; (repeat split; try reflexivity; discriminate).
Qed.

Lemma find_topic_elem (query_lower : string) items results :
  find_topic query_lower items = Some results →
  ∃ topic, (topic, results) ∈ items ∧ Py.contains topic query_lower = true.
Proof.
  induction items as [|[topic rs] items IH]; simpl; [done |].
  destruct (Py.contains topic query_lower) eqn:Hc.
  - intros [= <-]. exists topic. split; [left | done].
  - intros H. destruct (IH H) as (t & Hin & Ht). exists t. split; [by right | done].
Qed.

Lemma find_topic_canned (query_lower : string) results :
  find_topic query_lower topics = Some results →
  Forall canned_record results ∧ results ≠ [].
Proof.
  intros H. destruct (find_topic_elem _ _ _ H) as (topic & Hin & _).
  pose proof topics_canned as Hall. rewrite Forall_forall in Hall.
  exact (Hall _ Hin).
Qed.

Lemma completes_populated (query : string) (c r : gmap string string) :
  canned_record c → completes query c r → populated r.
Proof.
  intros (Hl & title & snippet & source & Ht & Hsn & Hs & ? & ? & ?) (s & Hs' & ->).
  assert (s = source) as -> by congruence.
  exists title, ("https://" +:+ source), snippet, source.
  rewrite lookup_insert_eq, !lookup_insert_ne by done.
  repeat split; done.
Qed.

Lemma generic_result_populated (query : string) (i : Z) :
  populated (<["query" := query]> (generic_result query i)).
Proof.
  unfold generic_result. do 4 eexists.
  repeat split; simpl; discriminate.
Qed.

(** The generator, branch by branch: a topic found gives the slice of its
    canned set, completed; no topic gives the generic records. *)
Lemma mock_results_topic (query : string) (max_results : Z) canned :
  find_topic (Py.lower query) topics = Some canned →
  ∃ results,
    _generate_mock_results query max_results = Returns results ∧
    Forall2 (completes query) (Py.slice_to canned max_results) results.
Proof.
  intros Hf. destruct (find_topic_canned _ _ Hf) as [Hc Hne].
  unfold _generate_mock_results. rewrite Hf.
  destruct canned as [|c canned]; [done |].
  apply closing_loop_canned.
  destruct (slice_to_prefix (c :: canned) max_results) as [k ->].
  by apply Forall_take.
Qed.

Lemma mock_results_generic (query : string) (max_results : Z) :
  find_topic (Py.lower query) topics = None →
  _generate_mock_results query max_results =
    Returns ((fun i => <["query" := query]> (generic_result query i))
               <$> Py.range max_results).
Proof.
  intros Hf. unfold _generate_mock_results. rewrite Hf.
  apply closing_loop_generic.
Qed.

Lemma find_topic_first (query_lower : string) items (i : nat) topic canned :
  items !! i = Some (topic, canned) →
  Py.contains topic query_lower = true →
  (∀ j topic' canned', (j < i)%nat → items !! j = Some (topic', canned') →
     Py.contains topic' query_lower = false) →
  find_topic query_lower items = Some canned.
Proof.
  revert i. induction items as [|[t c] items IH]; intros i Hi Hin Hbefore.
  - by rewrite lookup_nil in Hi.
  - destruct i as [|i]; simpl in *.
    + injection Hi as -> ->. by rewrite Hin.
    + rewrite (Hbefore 0%nat t c) by (lia || done).
      apply (IH i Hi Hin). intros j t' c' Hj Hlk.
      apply (Hbefore (S j) t' c'); [lia | done].
Qed.

(** The keywords of the mapping, in its order. *)
Lemma topics_keywords :
  topics.*1 = ["climate change"; "artificial intelligence"; "economic"].
Proof. reflexivity. Qed.

Lemma completed_populated (query : string)
    (canned results : list (gmap string string)) :
  Forall canned_record canned →
  Forall2 (completes query) canned results →
  Forall populated results.
Proof.
  intros Hc Hall. induction Hall as [|c r l l' Hcr _ IH]; [constructor |].
  apply Forall_cons in Hc as [Hc1 Hc].
  constructor; [by eapply completes_populated | by apply IH].
Qed.

Lemma slice_to_canned (canned : list (gmap string string)) (n : Z) :
  Forall canned_record canned → Forall canned_record (Py.slice_to canned n).
Proof.
  intros Hc. destruct (slice_to_prefix canned n) as [k ->]. by apply Forall_take.
Qed.

(** C7 (amended).  For every query and cap, the mock generator returns,
    and returns the same records in whatever state the world is, which it
    leaves as it is; when the cap is not negative it returns at most that
    many records; every record has a non-empty title, link, snippet and
    source; and when a topic matches, the records are the canned ones of
    the slice, each with its link made of "https://" and its source. *)
Theorem mock_results_contract (query : string) (max_results : Z) :
  ∃ results,
    _generate_mock_results query max_results = Returns results ∧
    (∀ (W : Type) (w : W),
       lift (_generate_mock_results query max_results) w = (Returns results, w)) ∧
    (0 ≤ max_results → Z.of_nat (length results) ≤ max_results) ∧
    Forall populated results ∧
    (∀ canned, find_topic (Py.lower query) topics = Some canned →
       Forall2 (completes query) (Py.slice_to canned max_results) results).
Proof.
  destruct (find_topic (Py.lower query) topics) as [canned|] eqn:Hf.
  - destruct (mock_results_topic query max_results canned Hf) as (results & Hr & Hall).
    destruct (find_topic_canned _ _ Hf) as [Hc _].
    exists results. split; [exact Hr |]. split; [| split; [| split]].
    + intros W w. unfold lift. by rewrite Hr.
    + intros Hn. rewrite <- (Forall2_length _ _ _ Hall). by apply length_slice_to.
    + eapply completed_populated; [| exact Hall]. by apply slice_to_canned.
    + intros canned' [= <-]. exact Hall.
  - eexists. split; [by apply mock_results_generic |]. split; [| split; [| split]].
    + intros W w. unfold lift. by rewrite mock_results_generic.
    + intros Hn. rewrite length_fmap, length_range. lia.
    + apply Forall_fmap, Forall_true. intros i. apply generic_result_populated.
    + intros canned' [=].
Qed.

Lemma mock_results_contract_witness :
  ∃ results,
    _generate_mock_results "Effects of climate change" 2 = Returns results ∧
    Z.of_nat (length results) ≤ 2 ∧ Forall populated results.
Proof.
  destruct (mock_results_contract "Effects of climate change" 2)
    as (results & Hr & _ & Hlen & Hpop & _).
  exists results. split; [exact Hr |]. split; [apply Hlen; lia | exact Hpop].
Defined.

(** C7 as stated fails on a negative cap: the slice [[:-1]] of a canned set
    drops its last record and keeps two, which is more than the cap. *)
Lemma mock_results_negative_cap :
  ∃ results,
    _generate_mock_results "climate change" (-1) = Returns results ∧
    length results = 2%nat ∧
    ¬ (Z.of_nat (length results) ≤ -1).
Proof.
  assert (length <$> _generate_mock_results "climate change" (-1) = Returns 2%nat)
    as H by (vm_compute; reflexivity).
  destruct (_generate_mock_results "climate change" (-1)) as [results|]; [| done].
  injection H as H. exists results. rewrite H. split; [done |]. split; [done | lia].
Qed.

(** C8 (amended).  When the lower-cased query contains the keyword of a
    topic and of no topic before it in the mapping, and the cap is not
    negative, the generator returns the first records of that topic's
    canned set, as many as the cap allows, each completed with the query
    and its link. *)
Theorem known_topic_results (query : string) (max_results : Z)
    (i : nat) (topic : string) (canned : list (gmap string string)) :
  topics !! i = Some (topic, canned) →
  Py.contains topic (Py.lower query) = true →
  (∀ j topic' canned', (j < i)%nat → topics !! j = Some (topic', canned') →
     Py.contains topic' (Py.lower query) = false) →
  0 ≤ max_results →
  ∃ results,
    _generate_mock_results query max_results = Returns results ∧
    Forall2 (completes query) (take (Z.to_nat max_results) canned) results ∧
    Z.of_nat (length results) ≤ max_results.
Proof.
  intros Hi Hin Hbefore Hn.
  pose proof (find_topic_first _ _ _ _ _ Hi Hin Hbefore) as Hf.
  destruct (mock_results_topic query max_results canned Hf) as (results & Hr & Hall).
  rewrite slice_to_nonneg in Hall by done.
  exists results. split; [exact Hr |]. split; [exact Hall |].
  rewrite <- (Forall2_length _ _ _ Hall), length_take. lia.
Qed.

Lemma known_topic_results_witness :
  ∃ canned results,
    topics !! 2%nat = Some ("economic", canned) ∧
    _generate_mock_results "AI and Economic growth" 2 = Returns results ∧
    Forall2 (completes "AI and Economic growth") (take 2 canned) results.
Proof.
  eexists _. 
  destruct (known_topic_results "AI and Economic growth" 2 2 "economic" _
              eq_refl eq_refl) as (results & Hr & Hall & _).
  - intros j topic' canned' Hj Hlk.
    destruct j as [|[|j]]; [| | lia]; injection Hlk as <- <-; reflexivity.
  - lia.
  - exists results. split; [reflexivity |]. split; [exact Hr | exact Hall].
Defined.

(** C8 as stated fails on a negative cap: with the cap -2 the slice keeps
    one record of the canned set, which is not at most -2 records. *)
Lemma known_topic_negative_cap :
  Py.contains "economic" (Py.lower "Economic outlook") = true ∧
  ∃ results,
    _generate_mock_results "Economic outlook" (-2) = Returns results ∧
    length results = 1%nat ∧
    ¬ (Z.of_nat (length results) ≤ -2).
Proof.
  split; [reflexivity |].
  assert (length <$> _generate_mock_results "Economic outlook" (-2) = Returns 1%nat)
    as H by (vm_compute; reflexivity).
  destruct (_generate_mock_results "Economic outlook" (-2)) as [results|]; [| done].
  injection H as H. exists results. rewrite H. split; [done |]. split; [done | lia].
Qed.

(** ** The question decomposer *)

Section Decomposer.

Context {W QueryResult : Type} (self : Services W QueryResult).

(** The decomposer never raises. *)
Lemma break_down_question_returns (question : string) (w : W) :
  ∃ v w', _break_down_question self question w = (Returns v, w').
Proof.
  unfold _break_down_question. run.
  destruct (chat_completions_create self _ w) as [[response|e] w']; simpl;
    [| by eauto].
  destruct (message_content response) as [content|e]; simpl; [| by eauto].
  destruct (Json.loads (extract_json content)); simpl; eauto.
Qed.

(** C1 (amended).  For every question the decomposer returns; what it
    returns is the list holding the question alone whenever the model
    call raises or its reply has no content or is not JSON, and the
    parsed reply, whatever JSON value that is, otherwise. *)
Theorem break_down_question_fallback (question : string) (w : W) :
  ∃ v w',
    _break_down_question self question w = (Returns v, w') ∧
    (∀ e, parsed_reply self question w = Raises e → v = JArr [JStr question]) ∧
    (∀ v', parsed_reply self question w = Returns v' → v = v').
Proof.
  unfold _break_down_question, parsed_reply. run.
  destruct (chat_completions_create self (break_down_request question) w)
    as [[response|e] w']; simpl.
  - destruct (message_content response) as [content|e]; simpl.
    + destruct (Json.loads (extract_json content)) as [v|e]; simpl;
        eexists _, _; (split; [reflexivity |]); split; intros; congruence.
    + eexists _, _. split; [reflexivity |]. split; intros; congruence.
  - eexists _, _. split; [reflexivity |]. split; intros; congruence.
Qed.

End Decomposer.

(** The decomposer at work in the scripted world: a fenced list is
    unwrapped and parsed, a reply in prose and a silent service both give
    the question alone. *)
Lemma break_down_question_examples :
  (_break_down_question scripted "What is AI?"
     {| completions :=
          [reply ("```json" +:+ Py.nl +:+
                  json_array ["What is AI?"; "How is AI used?"] +:+ Py.nl +:+
                  "```")];
        pages := []; store := None; clock := 0 |}).1
    = Returns (JArr [JStr "What is AI?"; JStr "How is AI used?"]) ∧
  (_break_down_question scripted "What is AI?"
     {| completions := [reply "Sure, here are some sub-questions."];
        pages := []; store := None; clock := 0 |}).1
    = Returns (JArr [JStr "What is AI?"]) ∧
  (_break_down_question scripted "What is AI?" offline).1
    = Returns (JArr [JStr "What is AI?"]).
Proof. repeat split; vm_compute; reflexivity. Qed.

(** C1 as stated fails when the model replies with an empty JSON array:
    the reply parses, so the decomposer returns it, and the sequence is
    empty. *)
Lemma break_down_question_empty :
  (_break_down_question scripted "What is AI?"
     {| completions := [reply "[]"]; pages := []; store := None; clock := 0 |}).1
    = Returns (JArr []).
Proof. vm_compute. reflexivity. Qed.

(** ** The summarizer *)

Lemma add_source_citable (context : string) (sources : list Source)
    (i : Z) (r : gmap string string) :
  citable r →
  ∃ context' s,
    add_source (context, sources) (i, r) = Returns (context', sources ++ [s]) ∧
    id s = i + 1 ∧ r !! "title" = Some (title s) ∧
    r !! "link" = Some (url s) ∧ r !! "snippet" = Some (snippet s).
Proof.
  intros ([t Ht] & [sn Hsn] & [l Hl]).
  unfold add_source, Py.getitem. rewrite Ht, Hsn, Hl. simpl.
  eexists _, _. split; [reflexivity |]. done.
Qed.

Lemma ofold_cons {A B} (body : B → A → outcome B) (x : A) (l : list A) (acc : B) :
  ofold body (x :: l) acc = obind (body acc x) (ofold body l).
Proof. reflexivity. Qed.

(** The loop from index [k] on, over results that can be cited. *)
Lemma build_sources_from (k : nat) (l : list (gmap string string))
    (context : string) (sources : list Source) :
  Forall citable l →
  ∃ context' new,
    ofold add_source (imap (fun i x => (Z.of_nat (k + i), x)) l) (context, sources)
      = Returns (context', sources ++ new) ∧
    length new = length l ∧
    ∀ (i : nat) r, l !! i = Some r →
      ∃ s, new !! i = Some s ∧ id s = Z.of_nat (k + i) + 1 ∧
           r !! "title" = Some (title s) ∧ r !! "link" = Some (url s) ∧
           r !! "snippet" = Some (snippet s).
Proof.
  intros Hl. revert k context sources.
  induction Hl as [|r l Hr _ IH]; intros k context sources.
  - exists context, []. simpl. rewrite app_nil_r. repeat split; [].
    intros i r. by rewrite lookup_nil.
  - destruct (add_source_citable context sources (Z.of_nat (k + 0)) r Hr)
      as (context1 & s & Hadd & Hid & Ht & Hlk & Hsn).
    destruct (IH (S k) context1 (sources ++ [s])) as (context' & new & Hfold & Hlen & Hnew).
    exists context', (s :: new). split; [| split].
    + rewrite imap_cons, ofold_cons, Hadd. unfold obind at 1.
      rewrite <- app_assoc in Hfold. simpl in Hfold. rewrite <- Hfold.
      f_equal. apply imap_ext. intros i x _. simpl. f_equal. lia.
    + simpl. by rewrite Hlen.
    + intros [|i] r' Hi; simpl in Hi.
      * injection Hi as <-. exists s. by repeat split.
      * destruct (Hnew i r' Hi) as (s' & ? & Hid' & ?).
        exists s'. split; [done |]. split; [| done]. rewrite Hid'. lia.
Qed.

Lemma build_sources_citable (search_results : list (gmap string string)) :
  Forall citable search_results →
  ∃ context sources,
    build_sources search_results = Returns (context, sources) ∧
    sources_of search_results sources.
Proof.
  intros Hl.
  destruct (build_sources_from 0 search_results "" [] Hl)
    as (context & new & Hfold & Hlen & Hnew).
  exists context, new. split; [exact Hfold |]. split; [exact Hlen | exact Hnew].
Qed.

Section Summarizer.

Context {W QueryResult : Type} (self : Services W QueryResult).

(** Once the sources are built the summarizer returns them, with the
    stripped content of the reply or with the error message. *)
Lemma summarize_findings_built (main_question : string)
    (sub_questions : list string) (search_results : list (gmap string string))
    (context : string) (sources : list Source) (w : W) :
  build_sources search_results = Returns (context, sources) →
  ∃ summary w',
    _summarize_findings self main_question sub_questions search_results w
      = (Returns (summary, sources), w').
Proof.
  intros Hb. unfold _summarize_findings. rewrite Hb. run. simpl.
  destruct (chat_completions_create self _ w) as [[response|e] w']; simpl.
  - destruct (message_content response); simpl; eauto.
  - eauto.
Qed.

(** C2.  For every list of search results (records with a title, a
    snippet and a link) the summarizer returns, whatever the model
    does, and the sources it returns are as many as the results, the
    [i]-th with id [i + 1] and the title, link and snippet of the [i]-th
    result. *)
Theorem summarize_findings_sources (main_question : string)
    (sub_questions : list string) (search_results : list (gmap string string))
    (w : W) :
  Forall citable search_results →
  ∃ summary sources w',
    _summarize_findings self main_question sub_questions search_results w
      = (Returns (summary, sources), w') ∧
    length sources = length search_results ∧
    ∀ (i : nat) r, search_results !! i = Some r →
      ∃ s, sources !! i = Some s ∧ id s = Z.of_nat i + 1 ∧
           r !! "title" = Some (title s) ∧ r !! "link" = Some (url s) ∧
           r !! "snippet" = Some (snippet s).
Proof.
  intros Hl.
  destruct (build_sources_citable search_results Hl)
    as (context & sources & Hb & Hlen & Hsrc).
  destruct (summarize_findings_built main_question sub_questions
              search_results context sources w Hb) as (summary & w' & Hrun).
  exists summary, sources, w'. split; [exact Hrun |]. split; [exact Hlen |].
  exact Hsrc.
Qed.

(** C5.  When the call to the model raises, the summarizer returns the
    fixed message with the sources that the loop before the call
    built. *)
Theorem summarize_findings_error (main_question : string)
    (sub_questions : list string) (search_results : list (gmap string string))
    (context : string) (sources : list Source) (e : exn) (w w' : W) :
  build_sources search_results = Returns (context, sources) →
  chat_completions_create self
    (summary_request main_question sub_questions context) w = (Raises e, w') →
  _summarize_findings self main_question sub_questions search_results w
    = (Returns ("Error generating summary. Please try again.", sources), w').
Proof.
  intros Hb Hcall. unfold _summarize_findings. rewrite Hb. run. simpl.
  by rewrite Hcall.
Qed.

(** The same message when the call returns a reply without content. *)
Lemma summarize_findings_no_content (main_question : string)
    (sub_questions : list string) (search_results : list (gmap string string))
    (context : string) (sources : list Source) response (e : exn) (w w' : W) :
  build_sources search_results = Returns (context, sources) →
  chat_completions_create self
    (summary_request main_question sub_questions context) w
    = (Returns response, w') →
  message_content response = Raises e →
  _summarize_findings self main_question sub_questions search_results w
    = (Returns (error_summary, sources), w').
Proof.
  intros Hb Hcall Hc. unfold _summarize_findings. rewrite Hb. run. simpl.
  by rewrite Hcall, Hc.
Qed.

(** A result without one of the three keys stops the summarizer before
    the model is called: the [KeyError] is raised outside the [try]. *)
Lemma summarize_findings_key_error (main_question : string)
    (sub_questions : list string) (search_results : list (gmap string string))
    (e : exn) (w : W) :
  build_sources search_results = Raises e →
  _summarize_findings self main_question sub_questions search_results w
    = (Raises e, w).
Proof. intros Hb. unfold _summarize_findings. rewrite Hb. by run. Qed.

End Summarizer.

(** ** The search tiers *)

Lemma length_parse_divs {A} (parse : A → outcome (option (gmap string string)))
    (results : list A) :
  (length (parse_divs parse results) ≤ length results)%nat.
Proof.
  unfold parse_divs. induction results as [|x l IH]; [done |].
  cbn [omap list_omap]. destruct (parse x) as [[r|]|e]; cbn [length]; lia.
Qed.

Lemma search_result_citable (title link snippet source query : string) :
  citable (search_result title link snippet source query).
Proof. unfold citable, search_result. split_and!; by eexists. Qed.

Lemma populated_citable (r : gmap string string) : populated r → citable r.
Proof.
  intros (t & l & sn & s & Ht & Hl & Hsn & _). unfold citable.
  rewrite Ht, Hl, Hsn. split_and!; by eexists.
Qed.

(** Every record a tier appends is the five-key literal whose source is
    computed from its link. *)
Lemma parse_divs_records {A} (parse : A → outcome (option (gmap string string)))
    (P : gmap string string → Prop) (results : list A) :
  (∀ x r, parse x = Returns (Some r) → P r) →
  Forall P (parse_divs parse results).
Proof.
  intros Hp. unfold parse_divs. apply Forall_forall. intros r Hr.
  apply list_elem_of_omap in Hr as (x & _ & Hx).
  destruct (parse x) as [[r'|]|e] eqn:Hparse; simplify_eq. by eapply Hp.
Qed.

Section Search.

Context {W QueryResult : Type} (self : Services W QueryResult).

Lemma parse_ddg_div_record (query : string) (result : ddg_div) r :
  parse_ddg_div self query result = Returns (Some r) →
  ∃ title link snippet source,
    r = search_result title link snippet source query ∧
    source_of_link link = Returns source.
Proof.
  unfold parse_ddg_div.
  destruct (result__a result) as [title_elem|]; [| done].
  destruct (result__snippet result) as [snippet_elem|]; [| done].
  unfold mbind, outcome_bind, obind.
  destruct (unwrap_redirect self _) as [link|]; [| done].
  destruct (source_of_link link) as [source|] eqn:Hs; [| done].
  intros [= <-]. eauto 10.
Qed.

Lemma parse_google_div_record (query : string) (result : google_div) r :
  parse_google_div query result = Returns (Some r) →
  ∃ title link snippet source,
    r = search_result title link snippet source query ∧
    source_of_link link = Returns source.
Proof.
  unfold parse_google_div.
  destruct (find_h3 result) as [title_elem|]; [| done].
  destruct (find_a result) as [link_elem|]; [| done].
  unfold mbind, outcome_bind, obind.
  destruct (source_of_link _) as [source|] eqn:Hs; [| done].
  intros [= <-]. eauto 10.
Qed.

Lemma ddg_divs_citable (query : string) (results : list ddg_div) :
  Forall citable (parse_divs (parse_ddg_div self query) results).
Proof.
  apply parse_divs_records. intros x r Hr.
  apply parse_ddg_div_record in Hr as (? & ? & ? & ? & -> & _).
  apply search_result_citable.
Qed.

Lemma google_divs_citable (query : string) (results : list google_div) :
  Forall citable (parse_divs (parse_google_div query) results).
Proof.
  apply parse_divs_records. intros x r Hr.
  apply parse_google_div_record in Hr as (? & ? & ? & ? & -> & _).
  apply search_result_citable.
Qed.

Lemma within_parse_divs {A} (parse : A → outcome (option (gmap string string)))
    (divs : list A) (max_results : Z) :
  Forall citable (parse_divs parse (Py.slice_to divs max_results)) →
  within max_results (parse_divs parse (Py.slice_to divs max_results)).
Proof.
  intros Hc. split; [done |]. intros Hn.
  pose proof (length_parse_divs parse (Py.slice_to divs max_results)).
  pose proof (length_slice_to divs max_results Hn). lia.
Qed.

(** The second tier never raises; what it finds is not empty. *)
Lemma google_results_returns (query : string) (max_results : Z) (w : W) :
  ∃ found w',
    google_results self query max_results w = (Returns found, w') ∧
    ∀ results, found = Some results →
      results ≠ [] ∧ within max_results results.
Proof.
  unfold google_results. run.
  destruct (quote_plus self query) as [quoted|e]; simpl;
    [| by eexists None, _].
  destruct (requests_get self _ w) as [[response|e] w']; simpl;
    [| by eexists None, _].
  destruct (status_code response =? 200); [| by eexists None, _].
  destruct (parse_divs _ _) as [|r rs] eqn:Hp; [by eexists None, _ |].
  eexists (Some (r :: rs)), _. split; [reflexivity |].
  intros results [= <-]. split; [done |]. rewrite <- Hp.
  apply within_parse_divs, google_divs_citable.
Qed.

Lemma mock_results_within (query : string) (max_results : Z) :
  ∃ results,
    _generate_mock_results query max_results = Returns results ∧
    within max_results results ∧ (0 < max_results → results ≠ []).
Proof.
  destruct (find_topic (Py.lower query) topics) as [canned|] eqn:Hf.
  - destruct (mock_results_topic query max_results canned Hf)
      as (results & Hr & Hall).
    destruct (find_topic_canned _ _ Hf) as [Hc Hne].
    exists results. split; [exact Hr |]. split; [split |].
    + eapply Forall_impl; [| apply populated_citable].
      eapply completed_populated; [| exact Hall]. by apply slice_to_canned.
    + intros Hn. rewrite <- (Forall2_length _ _ _ Hall).
      by apply length_slice_to.
    + intros Hn ->. apply Forall2_nil_inv_r in Hall.
      by apply (slice_to_nonempty canned max_results Hn Hne).
  - eexists. split; [by apply mock_results_generic |]. split; [split |].
    + apply Forall_fmap, Forall_true. intros i.
      apply populated_citable, generic_result_populated.
    + intros Hn. rewrite length_fmap, length_range. lia.
    + intros Hn Hnil. apply fmap_nil_inv in Hnil.
      pose proof (length_range max_results) as Hl. rewrite Hnil in Hl.
      simpl in Hl. lia.
Qed.

(** The fallback never raises: it returns what the second tier found,
    or else what the mock generator makes. *)
Lemma fallback_search_returns (query : string) (max_results : Z) (w : W) :
  ∃ results w',
    _fallback_search self query max_results w = (Returns results, w') ∧
    within max_results results ∧
    (0 < max_results → results ≠ []) ∧
    match google_results self query max_results w with
    | (Returns (Some found), w2) => results = found ∧ w' = w2
    | (_, w2) =>
        _generate_mock_results query max_results = Returns results ∧ w' = w2
    end.
Proof.
  unfold _fallback_search.
  destruct (google_results_returns query max_results w) as (found & w2 & Hg & Hfound).
  unfold mbind at 1, M_bind at 1, bind at 1. rewrite Hg.
  destruct found as [results|].
  - destruct (Hfound results eq_refl) as [Hne Hin].
    exists results, w2. by split_and!.
  - destruct (mock_results_within query max_results) as (results & Hr & Hin & Hne).
    exists results, w2. run. rewrite Hr. by split_and!.
Qed.

(** C3.  For every query and every cap above zero, the search returns,
    and returns at least one record: the records of the first engine
    when it yields some; otherwise, the first engine having yielded none
    or raised, the records of the second engine when it yields some;
    otherwise the records of the mock generator. *)
Theorem search_web_fallback_chain (query : string) (max_results : Z) (w : W) :
  0 < max_results →
  ∃ results w',
    _search_web self query max_results w = (Returns results, w') ∧
    results ≠ [] ∧
    match ddg_results self query max_results w with
    | (Returns (r :: rs), w1) => results = r :: rs ∧ w' = w1
    | (_, w1) =>
        match google_results self query max_results w1 with
        | (Returns (Some found), w2) => results = found ∧ w' = w2
        | (_, w2) =>
            _generate_mock_results query max_results = Returns results ∧
            w' = w2
        end
    end.
Proof.
  intros Hn. unfold _search_web.
  unfold try_except, mbind at 1, M_bind at 1, bind at 1.
  destruct (ddg_results self query max_results w) as [[[|r rs]|e] w1].
  - destruct (fallback_search_returns query max_results w1)
      as (results & w' & -> & _ & Hne & Htier).
    exists results, w'. split_and!; [done | by apply Hne | exact Htier].
  - exists (r :: rs), w1. by split_and!.
  - destruct (fallback_search_returns query max_results w1)
      as (results & w' & -> & _ & Hne & Htier).
    exists results, w'. split_and!; [done | by apply Hne | exact Htier].
Qed.

(** Whatever the cap, the search returns, and what it returns is within
    the cap and can be cited. *)
Lemma search_web_returns (query : string) (max_results : Z) (w : W) :
  ∃ results w',
    _search_web self query max_results w = (Returns results, w') ∧
    within max_results results.
Proof.
  unfold _search_web.
  unfold try_except, mbind at 1, M_bind at 1, bind at 1.
  destruct (ddg_results self query max_results w) as [[[|r rs]|e] w1] eqn:Hd.
  - destruct (fallback_search_returns query max_results w1)
      as (results & w' & -> & Hin & _). eauto.
  - exists (r :: rs), w1. split; [done |].
    revert Hd. unfold ddg_results. run.
    destruct (quote_plus self query) as [quoted|]; simpl; [| done].
    destruct (requests_get self _ w) as [[response|] ?]; simpl; [| done].
    destruct (raise_for_status response); simpl; [| done].
    intros [= Hp <-]. rewrite <- Hp.
    apply within_parse_divs, ddg_divs_citable.
  - destruct (fallback_search_returns query max_results w1)
      as (results & w' & -> & Hin & _). eauto.
Qed.

End Search.

(** With nothing answering, three records about a known topic come from
    the mock generator. *)
Lemma search_web_fallback_chain_witness :
  ∃ results w',
    _search_web scripted "artificial intelligence today" 3 offline
      = (Returns results, w') ∧
    results ≠ [] ∧
    _generate_mock_results "artificial intelligence today" 3 = Returns results.
Proof.
  destruct (search_web_fallback_chain scripted "artificial intelligence today" 3
              offline) as (results & w' & Hrun & Hne & Htier); [lia |].
  exists results, w'. split; [exact Hrun |]. split; [exact Hne |].
  exact (proj1 Htier).
Defined.

(** ** The source of a parsed record *)

Lemma prefix_slashes (s : string) :
  String.prefix "//" s =
    match s with
    | String c (String d _) => Ascii.eqb c "/" && Ascii.eqb d "/"
    | _ => false
    end.
Proof.
  destruct s as [|c [|d s]]; [done | |]; cbn [String.prefix].
  - by destruct (ascii_dec "/" c).
  - destruct (ascii_dec "/" c) as [<-|Hc].
    + destruct (ascii_dec "/" d) as [<-|Hd]; [by destruct s |].
      symmetry. apply andb_false_intro2. apply Ascii.eqb_neq. congruence.
    + symmetry. apply andb_false_intro1. apply Ascii.eqb_neq. congruence.
Qed.

(** A link holds a doubled slash exactly when it has a delimiter. *)
Lemma contains_delimiter (link : string) :
  Py.contains "//" link = bool_decide (is_Some (after_delimiter link)).
Proof.
  induction link as [|c link IH]; [done |].
  cbn [Py.contains after_delimiter]. rewrite prefix_slashes, IH.
  destruct link as [|d rest]; [done |].
  by destruct (Ascii.eqb c "/" && Ascii.eqb d "/").
Qed.

Lemma split_head (s : string) :
  ∃ tl, Py.split "/" s = up_to_slash s :: tl.
Proof.
  induction s as [|c s [tl IH]]; [by eexists |].
  cbn [Py.split up_to_slash]. destruct (Ascii.eqb c "/"); [by eexists |].
  rewrite IH. by eexists.
Qed.

Lemma split_slash (s : string) :
  Py.split "/" (String "/" s) = EmptyString :: Py.split "/" s.
Proof. reflexivity. Qed.

Lemma split_other (c : ascii) (s : string) :
  c ≠ "/"%char →
  ∃ h tl, Py.split "/" s = h :: tl ∧
          Py.split "/" (String c s) = String c h :: tl.
Proof.
  intros Hc. destruct (split_head s) as [tl Hs].
  exists (up_to_slash s), tl. split; [done |].
  cbn [Py.split]. destruct (Ascii.eqb_spec c "/") as [|_]; [done |].
  by rewrite Hs.
Qed.

(** With a doubled slash somewhere, the split has a third part. *)
Lemma split_third (link : string) :
  Py.contains "//" link = true → is_Some (Py.split "/" link !! 2%nat).
Proof.
  induction link as [|c link IH]; [done |].
  cbn [Py.contains]. rewrite prefix_slashes.
  destruct link as [|d rest]; [done |].
  destruct (Ascii.eqb_spec c "/") as [->|Hc].
  - rewrite split_slash. destruct (Ascii.eqb_spec d "/") as [->|Hd].
    + intros _. rewrite split_slash.
      destruct (split_head rest) as [tl ->]. by eexists.
    + cbn [andb orb]. intros H. specialize (IH H).
      apply lookup_lt_is_Some in IH. apply lookup_lt_is_Some.
      cbn [length]. lia.
  - cbn [andb orb]. intros H. specialize (IH H).
    destruct (split_other c (String d rest) Hc) as (h & tl & Hs & ->).
    rewrite Hs in IH. exact IH.
Qed.

(** The expression of both parsers never raises. *)
Lemma source_of_link_returns (link : string) :
  ∃ source, source_of_link link = Returns source.
Proof.
  unfold source_of_link. destruct (Py.contains "//" link) eqn:Hc; [| by eexists].
  destruct (split_third link Hc) as [host ->]. by eexists.
Qed.

Lemma source_of_link_no_delimiter (link : string) :
  Py.contains "//" link = false →
  source_of_link link = Returns link ∧ host_component link = link.
Proof.
  intros Hc. unfold source_of_link, host_component. rewrite Hc.
  rewrite contains_delimiter in Hc. apply bool_decide_eq_false in Hc.
  destruct (after_delimiter link); [| done]. destruct Hc. by eexists.
Qed.

(** When the first slash of the link is the doubled one, the third part of
    the split is the host. *)
Lemma split_third_host (link : string) :
  first_slash_doubled link = true →
  ∃ rest,
    after_delimiter link = Some rest ∧
    Py.split "/" link !! 2%nat = Some (up_to_slash rest).
Proof.
  induction link as [|c link IH]; [done |].
  cbn [first_slash_doubled after_delimiter].
  destruct (Ascii.eqb_spec c "/") as [->|Hc].
  - destruct link as [|d rest]; [done |]. intros Hd.
    apply Ascii.eqb_eq in Hd as ->.
    exists rest. split; [done |]. rewrite !split_slash.
    destruct (split_head rest) as [tl ->]. done.
  - intros H. destruct (IH H) as (rest & Hafter & Hsplit).
    exists rest. destruct link as [|d link']; [done |].
    cbn [andb]. split; [done |].
    destruct (split_other c (String d link') Hc) as (h & tl & Hs & ->).
    rewrite Hs in Hsplit. exact Hsplit.
Qed.

(** Where the code and the specification agree: on a link without a
    doubled slash, and on a link whose first slash is the doubled one. *)
Lemma source_of_link_host (link : string) :
  Py.contains "//" link = false ∨ first_slash_doubled link = true →
  source_of_link link = Returns (host_component link).
Proof.
  intros [Hc|Hf].
  - destruct (source_of_link_no_delimiter link Hc) as [-> ->]. done.
  - destruct (split_third_host link Hf) as (rest & Hafter & Hsplit).
    unfold source_of_link, host_component.
    rewrite contains_delimiter, Hafter, Hsplit.
    by rewrite bool_decide_eq_true_2 by by eexists.
Qed.

(** C9.  The code at a link that holds a delimiter after a single slash.
    The second engine's parser makes of a redirect link a record whose
    source is empty, where the host of the link, what follows the
    delimiter up to the next slash, is [www.epa.gov]; the first engine's
    parser, on a redirect link that it does not unwrap, makes a record
    whose source is a piece of the query string, where the host is
    [www.nasa.gov]. *)
Theorem source_of_redirect_link :
  link_and_source
    (parse_google_div "climate change"
       {| find_h3 := Some {| get_text := "Climate Change | US EPA"; href := None |};
          find_a := Some {| get_text := "Climate Change | US EPA";
                            href := Some "/url?q=https://www.epa.gov/climatechange&sa=U" |};
          find_span := None |})
    = Some (Some "/url?q=https://www.epa.gov/climatechange&sa=U", Some "") ∧
  host_component "/url?q=https://www.epa.gov/climatechange&sa=U" = "www.epa.gov" ∧
  link_and_source
    (parse_ddg_div scripted "climate change"
       {| result__a := Some {| get_text := "Climate - NASA";
                               href := Some "/l/?kh=-1&u=https://www.nasa.gov/climate" |};
          result__snippet := Some {| get_text := "Vital signs."; href := None |} |})
    = Some (Some "/l/?kh=-1&u=https://www.nasa.gov/climate", Some "?kh=-1&u=https:") ∧
  host_component "/l/?kh=-1&u=https://www.nasa.gov/climate" = "www.nasa.gov".
Proof. split_and!; vm_compute; reflexivity. Qed.

(** ** The result store *)

Section Store.

Context {W QueryResult : Type} (self : Services W QueryResult).

(** Storing returns, whatever the vector store does. *)
Lemma store_results_returns (research_id question summary : string)
    (sources : list Source) (w : W) :
  ∃ w', _store_results self research_id question summary sources w
          = (Returns tt, w').
Proof.
  unfold _store_results. run.
  destruct (datetime_now self w) as [timestamp w1].
  destruct (collection_add self _ w1) as [[[]|e] w2]; eauto.
Qed.

End Store.

(** ** The orchestrator *)

Lemma strs_fmap_JStr (sub_qs : list string) : strs (JStr <$> sub_qs) = sub_qs.
Proof.
  unfold strs. induction sub_qs as [|q qs IH]; [done |].
  cbn [fmap list_fmap omap list_omap]. by f_equal.
Qed.

(** Lists that are each within a cap sum up to at most their number times
    the cap. *)
Lemma length_concat_within (cap : Z) (rss : list (list (gmap string string))) :
  0 ≤ cap → Forall (within cap) rss →
  Z.of_nat (length (concat rss)) ≤ Z.of_nat (length rss) * cap.
Proof.
  intros Hcap Hall. induction Hall as [|rs rss [_ Hrs] _ IH]; [simpl; lia |].
  cbn [concat]. rewrite length_app. cbn [length]. specialize (Hrs Hcap). lia.
Qed.

Section Orchestrator.

Context {W QueryResult : Type} (self : Services W QueryResult).

Lemma for_each_cons {A B} (body : B → A → M W B) (x : A) (l : list A)
    (acc : B) (w : W) :
  for_each body (x :: l) acc w =
    match body acc x w with
    | (Returns acc', w') => for_each body l acc' w'
    | (Raises e, w') => (Raises e, w')
    end.
Proof. reflexivity. Qed.

(** The loop body on a sub-question that is a string. *)
Lemma search_sub_question_str (max_results : Z) (len : nat)
    (acc : list (gmap string string)) (q : string) (w : W) :
  len ≠ 0%nat →
  search_sub_question self max_results len acc (JStr q) w =
    match _search_web self q (max_results / Z.of_nat len) w with
    | (Returns results, w') => (Returns (acc ++ results), w')
    | (Raises e, w') => (Raises e, w')
    end.
Proof.
  intros Hlen. unfold search_sub_question, Py.floordiv.
  destruct (Z.eqb_spec (Z.of_nat len) 0) as [|_]; [lia |]. by run.
Qed.

(** The search loop over sub-questions that are strings: one search a
    sub-question, each with the cap [max_results // len], the results
    appended in that order. *)
Lemma search_loop_fan_out (max_results : Z) (len : nat) (sub_qs : list string)
    (acc : list (gmap string string)) (w : W) :
  len ≠ 0%nat →
  ∃ rss w',
    fan_out self (max_results / Z.of_nat len) sub_qs w rss w' ∧
    for_each (search_sub_question self max_results len) (JStr <$> sub_qs) acc w
      = (Returns (acc ++ concat rss), w') ∧
    Forall (within (max_results / Z.of_nat len)) rss ∧
    length rss = length sub_qs.
Proof.
  intros Hlen. revert acc w.
  induction sub_qs as [|q qs IH]; intros acc w.
  - exists [], w. split_and!; [constructor | | constructor | done].
    simpl. by rewrite app_nil_r.
  - destruct (search_web_returns self q (max_results / Z.of_nat len) w)
      as (rs & w1 & Hs & Hin).
    destruct (IH (acc ++ rs) w1) as (rss & w' & Hfan & Hloop & Hall & Hl).
    exists (rs :: rss), w'. split_and!.
    + by econstructor.
    + rewrite fmap_cons, for_each_cons, search_sub_question_str by done.
      rewrite Hs, Hloop. cbn [concat]. by rewrite app_assoc.
    + by constructor.
    + simpl. by rewrite Hl.
Qed.

(** The orchestrator up to the end of the search loop, when the
    decomposer has returned a list of strings. *)
Lemma conduct_research_searched (question : string) (max_results : Z)
    (sub_qs : list string) (research_id : string) (w0 w1 w2 w3 : W)
    (all_search_results : list (gmap string string)) :
  uuid4 self w0 = (research_id, w1) →
  _break_down_question self question w1
    = (Returns (JArr (JStr <$> sub_qs)), w2) →
  for_each (search_sub_question self max_results (length sub_qs))
    (JStr <$> sub_qs) [] w2 = (Returns all_search_results, w3) →
  conduct_research self question max_results w0
    = after_search self research_id question (JArr (JStr <$> sub_qs))
        sub_qs all_search_results w3.
Proof.
  intros Hid Hbd Hloop. unfold conduct_research, after_search.
  unfold mbind at 1, M_bind at 1, bind at 1, ask. rewrite Hid.
  unfold mbind at 1, M_bind at 1, bind at 1. rewrite Hbd.
  unfold mbind at 1, M_bind at 1, bind at 1, lift. cbn [iterate].
  rewrite length_fmap.
  unfold mbind at 1, M_bind at 1, bind at 1. rewrite Hloop.
  by rewrite strs_fmap_JStr.
Qed.

(** C4 (amended).  When the decomposer returns a non-empty list of [k]
    sub-questions, the orchestrator searches each of them with the cap
    [max_results // k], in their order, and goes on to summarize the
    concatenation of what the searches returned; that list has at most
    [max_results] elements when [max_results] is not negative. *)
Theorem conduct_research_fan_out (question : string) (max_results : Z)
    (sub_qs : list string) (research_id : string) (w0 w1 w2 : W) :
  sub_qs ≠ [] →
  uuid4 self w0 = (research_id, w1) →
  _break_down_question self question w1
    = (Returns (JArr (JStr <$> sub_qs)), w2) →
  ∃ rss w3,
    fan_out self (max_results / Z.of_nat (length sub_qs)) sub_qs w2 rss w3 ∧
    conduct_research self question max_results w0
      = after_search self research_id question (JArr (JStr <$> sub_qs))
          sub_qs (concat rss) w3 ∧
    (0 ≤ max_results → Z.of_nat (length (concat rss)) ≤ max_results).
Proof.
  intros Hne Hid Hbd.
  assert (length sub_qs ≠ 0%nat) as Hlen by (by destruct sub_qs).
  destruct (search_loop_fan_out max_results (length sub_qs) sub_qs [] w2 Hlen)
    as (rss & w3 & Hfan & Hloop & Hall & Hl).
  exists rss, w3. split_and!; [exact Hfan | |].
  - by apply (conduct_research_searched _ _ _ _ w0 w1 w2 w3).
  - intros Hm.
    assert (0 < Z.of_nat (length sub_qs)) as Hk by lia.
    pose proof (Z.div_pos max_results _ Hm Hk) as Hcap.
    pose proof (length_concat_within _ rss Hcap Hall) as Hsum.
    pose proof (Z.mul_div_le max_results _ Hk). rewrite Hl in Hsum. lia.
Qed.

(** The invariant of the response: when the decomposer returns a list of
    strings, the request returns, and the sources of the response are
    those of the aggregated results, one a result, numbered from one. *)
Lemma conduct_research_sources (question : string) (max_results : Z)
    (sub_qs : list string) (rid : string) (w0 w1 w2 : W) :
  sub_qs ≠ [] →
  uuid4 self w0 = (rid, w1) →
  _break_down_question self question w1
    = (Returns (JArr (JStr <$> sub_qs)), w2) →
  ∃ rss w3 response w',
    fan_out self (max_results / Z.of_nat (length sub_qs)) sub_qs w2 rss w3 ∧
    conduct_research self question max_results w0 = (Returns response, w') ∧
    sources_of (concat rss) (sources response) ∧
    sub_questions response = JArr (JStr <$> sub_qs) ∧
    research_id response = rid.
Proof.
  intros Hne Hid Hbd.
  assert (length sub_qs ≠ 0%nat) as Hlen by (by destruct sub_qs).
  destruct (search_loop_fan_out max_results (length sub_qs) sub_qs [] w2 Hlen)
    as (rss & w3 & Hfan & Hloop & Hall & Hl).
  rewrite app_nil_l in Hloop.
  assert (Forall citable (concat rss)) as Hcit.
  { apply Forall_concat. eapply Forall_impl; [exact Hall |]. by intros rs [? _]. }
  destruct (build_sources_citable _ Hcit) as (context & srcs & Hb & Hsrcs).
  destruct (summarize_findings_built self question sub_qs (concat rss)
              context srcs w3 Hb) as (summ & w4 & Hsum).
  destruct (store_results_returns self rid question summ srcs w4)
    as (w5 & Hstore).
  eexists rss, w3, _, w5. split; [exact Hfan |]. split.
  - rewrite (conduct_research_searched _ _ _ _ w0 w1 w2 w3 _ Hid Hbd Hloop).
    unfold after_search.
    unfold mbind at 1, M_bind at 1, bind at 1. rewrite Hsum.
    unfold mbind at 1, M_bind at 1, bind at 1. rewrite Hstore. reflexivity.
  - by split_and!.
Qed.

(** C10.  When the decomposer returns the empty list, the orchestrator
    returns: the loop body, and the division in it, is never reached;
    the response holds the empty list of sub-questions, no source, a
    summary and the identifier drawn at entry. *)
Theorem conduct_research_no_sub_questions (question : string)
    (max_results : Z) (research_id : string) (w0 w1 w2 : W) :
  uuid4 self w0 = (research_id, w1) →
  _break_down_question self question w1 = (Returns (JArr []), w2) →
  ∃ summary w',
    conduct_research self question max_results w0
      = (Returns {| question := question; sub_questions := JArr [];
                    summary := summary; sources := [];
                    research_id := research_id |}, w').
Proof.
  intros Hid Hbd. unfold conduct_research.
  unfold mbind at 1, M_bind at 1, bind at 1, ask. rewrite Hid.
  unfold mbind at 1, M_bind at 1, bind at 1. rewrite Hbd.
  unfold mbind at 1, M_bind at 1, bind at 1, lift. cbn [iterate].
  unfold mbind at 1, M_bind at 1, bind at 1. cbn [for_each ret].
  destruct (summarize_findings_built self question (strs []) [] "" [] w2 eq_refl)
    as (summary & w3 & Hsum).
  unfold mbind at 1, M_bind at 1, bind at 1. rewrite Hsum.
  destruct (store_results_returns self research_id question summary [] w3)
    as (w4 & Hstore).
  unfold mbind at 1, M_bind at 1, bind at 1. rewrite Hstore.
  by exists summary, w4.
Qed.

End Orchestrator.

Section Outcome.

Context {W QueryResult : Type} (self : Services W QueryResult).

(** The search loop over any items: it returns records that can be
    cited, or raises the [AttributeError] of an item that is not a
    string. *)
Lemma search_loop_outcome (max_results : Z) (len : nat) (items : list json)
    (acc : list (gmap string string)) (w : W) :
  len ≠ 0%nat → Forall citable acc →
  match (for_each (search_sub_question self max_results len) items acc w).1 with
  | Returns all => Forall citable all
  | Raises e => e = AttributeError
  end.
Proof.
  intros Hlen. revert acc w.
  induction items as [|item items IH]; intros acc w Hacc; [done |].
  rewrite for_each_cons.
  assert (∀ v, (∀ q, v ≠ JStr q) →
            search_sub_question self max_results len acc v w
              = (Raises AttributeError, w)) as Hother.
  { intros v Hv. unfold search_sub_question, Py.floordiv.
    destruct (Z.eqb_spec (Z.of_nat len) 0) as [|_]; [lia |]. run.
    destruct v; try done. by destruct (Hv s). }
  destruct item as [| | |q| |];
    try (rewrite Hother by done; done).
  rewrite search_sub_question_str by done.
  destruct (search_web_returns self q (max_results / Z.of_nat len) w)
    as (rs & w1 & -> & Hrs & _).
  apply IH. by apply Forall_app.
Qed.

(** A research request returns, unless the decomposer's value cannot be
    iterated ([TypeError]) or has an item that is not a string
    ([AttributeError]); in particular it never divides by zero and never
    misses a key. *)
Lemma conduct_research_raises (question : string) (max_results : Z)
    (w : W) (e : exn) :
  (conduct_research self question max_results w).1 = Raises e →
  e = TypeError ∨ e = AttributeError.
Proof.
  unfold conduct_research.
  unfold mbind at 1, M_bind at 1, bind at 1, ask.
  destruct (uuid4 self w) as [rid w1].
  destruct (break_down_question_returns self question w1) as (v & w2 & Hbd).
  unfold mbind at 1, M_bind at 1, bind at 1. rewrite Hbd.
  unfold mbind at 1, M_bind at 1, bind at 1, lift.
  destruct (iterate v) as [items|e'] eqn:Hit.
  - unfold mbind at 1, M_bind at 1, bind at 1.
    assert (match (for_each (search_sub_question self max_results (length items))
                     items [] w2).1 with
            | Returns all => Forall citable all
            | Raises e => e = AttributeError
            end) as Hloop.
    { destruct items as [|item items]; [by constructor |].
      by apply search_loop_outcome. }
    destruct (for_each _ items [] w2) as [[all|e'] w3]; simpl in Hloop.
    + destruct (build_sources_citable all Hloop) as (context & sources & Hb & _).
      destruct (summarize_findings_built self question (strs items) all
                  context sources w3 Hb) as (summary & w4 & Hsum).
      unfold mbind at 1, M_bind at 1, bind at 1. rewrite Hsum.
      destruct (store_results_returns self rid question summary sources w4)
        as (w5 & Hstore).
      unfold mbind at 1, M_bind at 1, bind at 1. rewrite Hstore. done.
    + simpl. intros [= <-]. by right.
  - simpl. intros [= <-]. left. destruct v; by inversion Hit.
Qed.

End Outcome.

(** ** Persistence is best effort *)

Section Persistence.

Context {W QueryResult : Type} (self : Services W QueryResult).

(** Only [_store_results] looks at [collection.add]. *)
Lemma stages_ignore_collection_add (add : add_request → M W unit) :
  uuid4 (with_collection_add self add) = uuid4 self ∧
  _break_down_question (with_collection_add self add)
    = _break_down_question self ∧
  search_sub_question (with_collection_add self add)
    = search_sub_question self ∧
  _summarize_findings (with_collection_add self add)
    = _summarize_findings self.
Proof. by split_and!. Qed.

(** C6.  When [collection.add] raises, [_store_results] returns all the
    same; when [collection.query] raises, [get_similar_research] returns
    the empty list; and what a research request returns or raises is the
    same whatever [collection.add] does. *)
Theorem persistence_is_best_effort (research_id question summary : string)
    (sources : list Source) (limit max_results : Z) (w : W) :
  (∀ timestamp w1 e w2,
     datetime_now self w = (timestamp, w1) →
     collection_add self
       {| documents := [summary];
          metadatas := [ {| meta_research_id := research_id;
                            meta_question := question;
                            meta_timestamp := timestamp;
                            meta_source_count := Z.of_nat (length sources) |} ];
          ids := [research_id] |} w1 = (Raises e, w2) →
     _store_results self research_id question summary sources w
       = (Returns tt, w2)) ∧
  (∀ e w',
     collection_query self [question] limit w = (Raises e, w') →
     get_similar_research self question limit w = (Returns EmptyList, w')) ∧
  (∀ add,
     (conduct_research (with_collection_add self add) question max_results w).1
       = (conduct_research self question max_results w).1).
Proof.
  split_and!.
  - intros timestamp w1 e w2 Hnow Hadd. unfold _store_results. run.
    by rewrite Hnow, Hadd.
  - intros e w' Hq. unfold get_similar_research. run. by rewrite Hq.
  - intros add.
    destruct (stages_ignore_collection_add add) as (Hid & Hbd & Hsq & Hsum).
    unfold conduct_research. rewrite Hid, Hbd, Hsq, Hsum. run.
    destruct (uuid4 self w) as [rid w1].
    destruct (_break_down_question self question w1) as [[v|e] w2]; [| done].
    destruct (iterate v) as [items|e]; [| done].
    destruct (for_each _ items [] w2) as [[all|e] w3]; [| done].
    destruct (_summarize_findings self question (strs items) all w3)
      as [[[summ srcs]|e] w4]; [| done].
    destruct (store_results_returns self rid question summ srcs w4) as (w5 & ->).
    destruct (store_results_returns (with_collection_add self add)
                rid question summ srcs w4) as (w6 & ->).
    done.
Qed.

End Persistence.

(** ** The agent in the scripted world *)

(** The first engine answers: the redirect link is unwrapped, the result
    without snippet is skipped, and each source is the host of its link. *)
Lemma search_web_first_tier :
  links_and_sources
    (_search_web scripted "climate" 5 (serving [] [Returns ddg_page])).1
  = Returns [ (Some "https://www.epa.gov/climatechange", Some "www.epa.gov");
              (Some "https://climate.nasa.gov/", Some "climate.nasa.gov") ].
Proof. vm_compute. reflexivity. Qed.

(** The first engine answers with an error status, the second with a
    page: its results are returned. *)
Lemma search_web_second_tier :
  links_and_sources
    (_search_web scripted "climate" 5
       (serving [] [Returns {| status_code := 503; divs_result := []; divs_g := [] |};
                    Returns google_page])).1
  = Returns [ (Some "https://www.ipcc.ch/reports/", Some "www.ipcc.ch") ].
Proof. vm_compute. reflexivity. Qed.

(** Both engines answer with pages that hold no result: the generic mock
    records are returned. *)
Lemma search_web_third_tier :
  links_and_sources
    (_search_web scripted "tides" 2
       (serving [] [Returns {| status_code := 200; divs_result := []; divs_g := [] |};
                    Returns {| status_code := 200; divs_result := []; divs_g := [] |}])).1
  = Returns [ (Some "https://example.com/research-1", Some "research-source-1.com");
              (Some "https://example.com/research-2", Some "research-source-2.com") ].
Proof. vm_compute. reflexivity. Qed.

Lemma two_results_citable : Forall citable two_results.
Proof. repeat constructor; apply search_result_citable. Qed.

Lemma summarize_findings_sources_witness :
  ∃ summary sources w',
    _summarize_findings scripted "climate" ["climate"] two_results offline
      = (Returns (summary, sources), w') ∧
    length sources = length two_results ∧
    ∀ (i : nat) r, two_results !! i = Some r →
      ∃ s, sources !! i = Some s ∧ id s = Z.of_nat i + 1 ∧
           r !! "title" = Some (title s) ∧ r !! "link" = Some (url s) ∧
           r !! "snippet" = Some (snippet s).
Proof.
  apply (summarize_findings_sources scripted "climate" ["climate"] two_results
           offline two_results_citable).
Defined.

Lemma summarize_findings_error_witness :
  ∃ sources,
    _summarize_findings scripted "climate" ["climate"] two_results offline
      = (Returns ("Error generating summary. Please try again.", sources), offline) ∧
    id <$> sources = [1; 2].
Proof.
  eexists. split.
  - eapply (summarize_findings_error scripted "climate" ["climate"] two_results).
    + reflexivity.
    + reflexivity.
  - reflexivity.
Defined.

(** The scenario of the specification: six results asked for, two
    sub-questions, three results a sub-question, at most six in all. *)
Lemma conduct_research_fan_out_witness :
  ∃ w2 rss w3,
    fan_out scripted 3 ["What is AI?"; "How is AI used?"] w2 rss w3 ∧
    Z.of_nat (length (concat rss)) ≤ 6.
Proof.
  destruct (conduct_research_fan_out scripted "What is AI?" 6
              ["What is AI?"; "How is AI used?"] _
              (serving [reply (json_array ["What is AI?"; "How is AI used?"])] [])
              _ _ ltac:(discriminate) eq_refl eq_refl)
    as (rss & w3 & Hfan & _ & Hlen).
  eexists _, rss, w3. split; [exact Hfan | apply Hlen; lia].
Defined.

(** C4 as stated fails on a negative [max_results]: with -1 and every
    service down, the question is the only sub-question, the cap is -1,
    and the mock generator keeps two canned records, which the response
    cites. *)
Lemma conduct_research_negative_max :
  (fun r => (sub_questions r, length (sources r)))
    <$> (conduct_research scripted "Effects of climate change" (-1) offline).1
  = Returns (JArr [JStr "Effects of climate change"], 2%nat) ∧
  ∃ all w',
    for_each (search_sub_question scripted (-1) 1)
      [JStr "Effects of climate change"] [] offline = (Returns all, w') ∧
    length all = 2%nat ∧
    ¬ (Z.of_nat (length all) ≤ -1).
Proof.
  split; [vm_compute; reflexivity |].
  assert (length <$> (for_each (search_sub_question scripted (-1) 1)
                        [JStr "Effects of climate change"] [] offline).1
          = Returns 2%nat) as H by (vm_compute; reflexivity).
  destruct (for_each _ _ _ _) as [[all|e] w']; [| done].
  injection H as H. exists all, w'. rewrite H. split_and!; [done | done | lia].
Qed.

Lemma conduct_research_no_sub_questions_witness :
  ∃ summary w',
    conduct_research scripted "What is AI?" 10 (serving [reply "[]"] [])
      = (Returns {| question := "What is AI?"; sub_questions := JArr [];
                    summary := summary; sources := [];
                    research_id := "research-0" |}, w').
Proof.
  apply (conduct_research_no_sub_questions scripted "What is AI?" 10 _
           (serving [reply "[]"] []) _ _ eq_refl eq_refl).
Defined.

Lemma persistence_is_best_effort_witness :
  _store_results scripted "research-0" "What is AI?" "A summary." [] offline
    = (Returns tt,
       {| completions := []; pages := []; store := None; clock := 1 |}) ∧
  get_similar_research scripted "What is AI?" 3 offline
    = (Returns EmptyList, offline).
Proof.
  destruct (persistence_is_best_effort scripted "research-0" "What is AI?"
              "A summary." [] 3 10 offline) as (Hstore & Hquery & _).
  split.
  - eapply Hstore; reflexivity.
  - eapply Hquery; reflexivity.
Defined.

(** A whole request with every service down: the question is its own
    sub-question, the mock generator supplies the results, the summary is
    the error message, and the response is returned all the same. *)
Lemma conduct_research_offline :
  (fun r => (sub_questions r, summary r, id <$> sources r, research_id r))
    <$> (conduct_research scripted "What is artificial intelligence?" 10 offline).1
  = Returns (JArr [JStr "What is artificial intelligence?"],
             "Error generating summary. Please try again.",
             [1; 2; 3], "research-0").
Proof. vm_compute. reflexivity. Qed.

(** * More of the code *)

(** ** Research requests, from the decomposer's value to the response *)

(** Items are all strings, or some first one is not. *)
Lemma items_strings_or_not (items : list json) :
  (∃ sub_qs, items = JStr <$> sub_qs) ∨
  (∃ pre bad post, items = (JStr <$> pre) ++ bad :: post ∧ ¬ is_JStr bad).
Proof.
  induction items as [|item items IH]; [left; by exists [] |].
  destruct item as [| | |s| |];
    try (right; eexists [], _, items; split; [reflexivity | by intros [? ?]]).
  destruct IH as [(sub_qs & ->)|(pre & bad & post & -> & Hbad)].
  - left. by exists (s :: sub_qs).
  - right. by exists (s :: pre), bad, post.
Qed.

Lemma Forall_is_JStr_fmap (sub_qs : list string) : Forall is_JStr (JStr <$> sub_qs).
Proof. apply Forall_fmap, Forall_true. intros s. by exists s. Qed.

Lemma Forall_is_JStr_inv (items : list json) :
  Forall is_JStr items → items = JStr <$> strs items.
Proof.
  induction 1 as [|item items [s ->] _ IH]; [done |].
  unfold strs in *. cbn [omap list_omap fmap list_fmap]. simpl. by f_equal.
Qed.

Section Requests.

Context {W QueryResult : Type} (self : Services W QueryResult).

Lemma for_each_app {A B} (body : B → A → M W B) (l1 l2 : list A)
    (acc : B) (w : W) :
  for_each body (l1 ++ l2) acc w =
    match for_each body l1 acc w with
    | (Returns acc', w') => for_each body l2 acc' w'
    | (Raises e, w') => (Raises e, w')
    end.
Proof.
  revert acc w. induction l1 as [|x l1 IH]; intros acc w; [done |].
  rewrite <- app_comm_cons, !for_each_cons.
  destruct (body acc x w) as [[acc'|e] w']; [apply IH | done].
Qed.

(** The loop body on an item that is not a string. *)
Lemma search_sub_question_other (max_results : Z) (len : nat)
    (acc : list (gmap string string)) (item : json) (w : W) :
  len ≠ 0%nat → ¬ is_JStr item →
  search_sub_question self max_results len acc item w
    = (Raises AttributeError, w).
Proof.
  intros Hlen Hitem. unfold search_sub_question, Py.floordiv.
  destruct (Z.eqb_spec (Z.of_nat len) 0) as [|_]; [lia |]. run.
  destruct item; try done. destruct Hitem. by eexists.
Qed.

(** The orchestrator once the identifier is drawn and the decomposer
    has returned. *)
Lemma conduct_research_decomposed (question : string) (max_results : Z)
    (rid : string) (v : json) (w w1 w2 : W) :
  uuid4 self w = (rid, w1) →
  _break_down_question self question w1 = (Returns v, w2) →
  conduct_research self question max_results w =
    match iterate v with
    | Raises e => (Raises e, w2)
    | Returns items =>
        match for_each (search_sub_question self max_results (length items))
                items [] w2 with
        | (Returns all, w3) => after_search self rid question v (strs items) all w3
        | (Raises e, w3) => (Raises e, w3)
        end
    end.
Proof.
  intros Hid Hbd. unfold conduct_research, after_search.
  unfold mbind at 1, M_bind at 1, bind at 1, ask. rewrite Hid.
  unfold mbind at 1, M_bind at 1, bind at 1. rewrite Hbd.
  unfold mbind at 1, M_bind at 1, bind at 1, lift.
  destruct (iterate v) as [items|e]; [| done].
  unfold mbind at 1, M_bind at 1, bind at 1.
  by destruct (for_each _ items [] w2) as [[all|e] w3].
Qed.

(** Summarizing and storing results that can be cited gives the
    response. *)
Lemma after_search_returns (rid question : string) (v : json)
    (items : list string) (all : list (gmap string string)) (w : W) :
  Forall citable all →
  ∃ summary srcs w',
    after_search self rid question v items all w
      = (Returns {| question := question; sub_questions := v;
                    summary := summary; sources := srcs;
                    research_id := rid |}, w') ∧
    sources_of all srcs.
Proof.
  intros Hall.
  destruct (build_sources_citable all Hall) as (context & srcs & Hb & Hsrcs).
  destruct (summarize_findings_built self question items all context srcs w Hb)
    as (summ & w1 & Hsum).
  destruct (store_results_returns self rid question summ srcs w1) as (w2 & Hstore).
  exists summ, srcs, w2. split; [| done]. unfold after_search.
  unfold mbind at 1, M_bind at 1, bind at 1. rewrite Hsum.
  unfold mbind at 1, M_bind at 1, bind at 1. by rewrite Hstore.
Qed.

(** The search loop over items that iterate to strings, whatever their
    number. *)
Lemma search_loop_strings (max_results : Z) (sub_qs : list string) (w : W) :
  ∃ rss w',
    fan_out self (max_results / Z.of_nat (length sub_qs)) sub_qs w rss w' ∧
    for_each (search_sub_question self max_results (length (JStr <$> sub_qs)))
      (JStr <$> sub_qs) [] w = (Returns (concat rss), w') ∧
    Forall (within (max_results / Z.of_nat (length sub_qs))) rss ∧
    length rss = length sub_qs.
Proof.
  destruct sub_qs as [|q qs].
  - exists [], w. split_and!; [constructor | done | constructor | done].
  - rewrite length_fmap.
    destruct (search_loop_fan_out self max_results (length (q :: qs)) (q :: qs)
                [] w ltac:(done)) as (rss & w' & Hfan & Hloop & Hall & Hl).
    by exists rss, w'.
Qed.

(** The search loop up to an item that is not a string. *)
Lemma search_loop_bad_item (max_results : Z) (pre : list string) (bad : json)
    (post : list json) (w : W) :
  ¬ is_JStr bad →
  ∃ rss w',
    fan_out self
      (max_results / Z.of_nat (length ((JStr <$> pre) ++ bad :: post))) pre w rss w' ∧
    for_each (search_sub_question self max_results
                (length ((JStr <$> pre) ++ bad :: post)))
      ((JStr <$> pre) ++ bad :: post) [] w = (Raises AttributeError, w').
Proof.
  intros Hbad.
  assert (length ((JStr <$> pre) ++ bad :: post) ≠ 0%nat) as Hlen.
  { rewrite length_app. simpl. lia. }
  destruct (search_loop_fan_out self max_results _ pre [] w Hlen)
    as (rss & w' & Hfan & Hloop & _).
  exists rss, w'. split; [exact Hfan |].
  rewrite for_each_app, Hloop, for_each_cons.
  by rewrite search_sub_question_other.
Qed.

(** X1.  A research request returns exactly when the value of the
    decomposer iterates to strings (a list of strings, a string, an
    object); it raises [TypeError], having called nothing more, when the
    value cannot be iterated, and [AttributeError] when an item is not a
    string; it raises nothing else. *)
Theorem research_request_outcome (q : string) (max_results : Z)
    (rid : string) (v : json) (w w1 w2 : W) :
  uuid4 self w = (rid, w1) →
  _break_down_question self q w1 = (Returns v, w2) →
  match conduct_research self q max_results w with
  | (Returns response, _) =>
      (∃ items, iterate v = Returns items ∧ Forall is_JStr items) ∧
      question response = q ∧
      sub_questions response = v ∧
      research_id response = rid
  | (Raises e, w') =>
      (e = TypeError ∧ iterate v = Raises TypeError ∧ w' = w2) ∨
      (e = AttributeError ∧
       ∃ items, iterate v = Returns items ∧ ¬ Forall is_JStr items)
  end.
Proof.
  intros Hid Hbd.
  rewrite (conduct_research_decomposed _ _ _ _ _ _ _ Hid Hbd).
  destruct (iterate v) as [items|e] eqn:Hit.
  - destruct (items_strings_or_not items)
      as [(sub_qs & ->)|(pre & bad & post & -> & Hbad)].
    + destruct (search_loop_strings max_results sub_qs w2)
        as (rss & w3 & _ & -> & Hall & _).
      destruct (after_search_returns rid q v (strs (JStr <$> sub_qs))
                  (concat rss) w3) as (summ & srcs & w4 & -> & _).
      { apply Forall_concat. eapply Forall_impl; [exact Hall |]. by intros rs [? _]. }
      split_and!; try done. eexists. split; [done |]. apply Forall_is_JStr_fmap.
    + destruct (search_loop_bad_item max_results pre bad post w2 Hbad)
        as (rss & w3 & _ & ->).
      right. split; [done |]. eexists. split; [done |].
      intros Hall. apply Forall_app in Hall as [_ Hall].
      by apply Forall_cons in Hall as [? _].
  - left. destruct v; by inversion Hit.
Qed.

(** X2.  When the decomposer returns a list with an item that is not a
    string, the sub-questions before that item are searched, in their
    order, and the request then raises [AttributeError]: nothing is
    summarized, nothing is stored. *)
Theorem research_request_bad_item (question : string) (max_results : Z)
    (rid : string) (pre : list string) (bad : json) (post : list json)
    (w w1 w2 : W) :
  uuid4 self w = (rid, w1) →
  _break_down_question self question w1
    = (Returns (JArr ((JStr <$> pre) ++ bad :: post)), w2) →
  ¬ is_JStr bad →
  ∃ rss w3,
    fan_out self
      (max_results / Z.of_nat (length pre + 1 + length post)) pre w2 rss w3 ∧
    conduct_research self question max_results w = (Raises AttributeError, w3).
Proof.
  intros Hid Hbd Hbad.
  rewrite (conduct_research_decomposed _ _ _ _ _ _ _ Hid Hbd). cbn [iterate].
  destruct (search_loop_bad_item max_results pre bad post w2 Hbad)
    as (rss & w3 & Hfan & ->).
  exists rss, w3. split; [| done].
  rewrite length_app, length_fmap in Hfan. cbn [length] in Hfan.
  by replace (length pre + 1 + length post)%nat
    with (length pre + S (length post))%nat by lia.
Qed.

(** The decomposer when the model's reply cannot be used. *)
Lemma break_down_question_unparsed (question : string) (e : exn) (w : W) :
  parsed_reply self question w = Raises e →
  ∃ w', _break_down_question self question w
          = (Returns (JArr [JStr question]), w').
Proof.
  unfold _break_down_question, parsed_reply. run.
  destruct (chat_completions_create self (break_down_request question) w)
    as [[response|e'] w']; simpl; [| by eauto].
  destruct (message_content response) as [content|e']; simpl; [| by eauto].
  destruct (Json.loads (extract_json content)) as [v|e']; simpl; [done | by eauto].
Qed.

(** X3.  When the model cannot be reached for the decomposition, or its
    reply is not JSON, the request returns all the same: the question is
    its only sub-question, it is searched once with the whole of
    [max_results] as cap, and the sources of the response are those of
    that search. *)
Theorem research_request_without_model (q : string) (max_results : Z)
    (rid : string) (e : exn) (w w1 : W) :
  uuid4 self w = (rid, w1) →
  parsed_reply self q w1 = Raises e →
  ∃ w2 results w3 response w',
    _break_down_question self q w1 = (Returns (JArr [JStr q]), w2) ∧
    _search_web self q max_results w2 = (Returns results, w3) ∧
    conduct_research self q max_results w = (Returns response, w') ∧
    question response = q ∧
    sub_questions response = JArr [JStr q] ∧
    research_id response = rid ∧
    sources_of results (sources response).
Proof.
  intros Hid Hparsed.
  destruct (break_down_question_unparsed q e w1 Hparsed) as (w2 & Hbd).
  destruct (search_web_returns self q max_results w2) as (results & w3 & Hs & Hin).
  destruct (after_search_returns rid q (JArr [JStr q]) [q] results w3 (proj1 Hin))
    as (summ & srcs & w4 & Hafter & Hsrcs).
  eexists w2, results, w3, _, w4. split; [exact Hbd |]. split; [exact Hs |].
  split.
  { rewrite (conduct_research_decomposed _ _ _ _ _ _ _ Hid Hbd). cbn [iterate].
    rewrite for_each_cons, search_sub_question_str by done.
    cbn [length]. change (Z.of_nat 1) with 1. rewrite Z.div_1_r, Hs.
    cbn [for_each ret app]. exact Hafter. }
  by split_and!.
Qed.

(** X4.  When the value of the decomposer iterates to strings, the
    request returns; each string is searched in turn with the cap
    [max_results // k], [k] being their number; the response repeats the
    question, the value of the decomposer and the identifier drawn at
    entry; its sources are those of the concatenated results, one a
    result and numbered from one; and they are at most [max_results]
    when [max_results] is not negative. *)
Theorem research_response_invariant (q : string) (max_results : Z)
    (rid : string) (v : json) (sub_qs : list string) (w w1 w2 : W) :
  uuid4 self w = (rid, w1) →
  _break_down_question self q w1 = (Returns v, w2) →
  iterate v = Returns (JStr <$> sub_qs) →
  ∃ rss w3 response w',
    fan_out self (max_results / Z.of_nat (length sub_qs)) sub_qs w2 rss w3 ∧
    conduct_research self q max_results w = (Returns response, w') ∧
    question response = q ∧
    sub_questions response = v ∧
    research_id response = rid ∧
    sources_of (concat rss) (sources response) ∧
    (0 ≤ max_results → Z.of_nat (length (sources response)) ≤ max_results).
Proof.
  intros Hid Hbd Hit.
  destruct (search_loop_strings max_results sub_qs w2)
    as (rss & w3 & Hfan & Hloop & Hall & Hl).
  assert (Forall citable (concat rss)) as Hcit.
  { apply Forall_concat. eapply Forall_impl; [exact Hall |]. by intros rs [? _]. }
  destruct (after_search_returns rid q v (strs (JStr <$> sub_qs)) (concat rss)
              w3 Hcit) as (summ & srcs & w4 & Hafter & Hsrcs).
  eexists rss, w3, _, w4. split; [exact Hfan |]. split.
  { rewrite (conduct_research_decomposed _ _ _ _ _ _ _ Hid Hbd), Hit, Hloop.
    exact Hafter. }
  split_and!; try done. cbn [sources]. intros Hm.
  destruct Hsrcs as [-> _].
  destruct sub_qs as [|sq sqs].
  - destruct rss; [simpl; lia | done].
  - assert (0 < Z.of_nat (length (sq :: sqs))) as Hk by (simpl; lia).
    pose proof (Z.div_pos max_results _ Hm Hk) as Hcap.
    pose proof (length_concat_within _ rss Hcap Hall) as Hsum.
    pose proof (Z.mul_div_le max_results _ Hk). rewrite Hl in Hsum. lia.
Qed.

(** X5.  When [max_results] is not negative and smaller than the number
    of sub-questions, the cap of every search is zero: the searches are
    made, each returns nothing, and the response has no source. *)
Theorem research_request_starved (q : string) (max_results : Z)
    (rid : string) (sub_qs : list string) (w w1 w2 : W) :
  uuid4 self w = (rid, w1) →
  _break_down_question self q w1 = (Returns (JArr (JStr <$> sub_qs)), w2) →
  0 ≤ max_results < Z.of_nat (length sub_qs) →
  ∃ rss w3 response w',
    fan_out self 0 sub_qs w2 rss w3 ∧
    Forall (fun results => results = []) rss ∧
    conduct_research self q max_results w = (Returns response, w') ∧
    sub_questions response = JArr (JStr <$> sub_qs) ∧
    sources response = [].
Proof.
  intros Hid Hbd Hm.
  destruct (search_loop_strings max_results sub_qs w2)
    as (rss & w3 & Hfan & Hloop & Hall & Hl).
  rewrite Z.div_small in Hfan, Hall by done.
  assert (Forall (fun results => results = []) rss) as Hnil.
  { eapply Forall_impl; [exact Hall |]. intros rs [_ Hrs].
    specialize (Hrs ltac:(done)). destruct rs; [done | simpl in Hrs; lia]. }
  assert (concat rss = []) as Hconcat.
  { clear -Hnil. induction Hnil as [|rs rss -> _ IH]; [done | by simpl]. }
  destruct (after_search_returns rid q (JArr (JStr <$> sub_qs))
              (strs (JStr <$> sub_qs)) (concat rss) w3) as (summ & srcs & w4 & Hafter & Hsrcs).
  { rewrite Hconcat. constructor. }
  eexists rss, w3, _, w4. split; [exact Hfan |]. split; [exact Hnil |]. split.
  { rewrite (conduct_research_decomposed _ _ _ _ _ _ _ Hid Hbd). cbn [iterate].
    rewrite Hloop. exact Hafter. }
  split; [done |].
  cbn [sources]. destruct Hsrcs as [Hlen _]. rewrite Hconcat in Hlen.
  by destruct srcs.
Qed.

End Requests.

(** ** Searches, whatever the cap *)

Lemma search_result_record_of (title link snippet source query : string) :
  record_of query (search_result title link snippet source query).
Proof. unfold record_of, search_result. split_and!; by eexists. Qed.

Lemma completed_record_of (query : string) (c r : gmap string string) :
  canned_record c → completes query c r → record_of query r.
Proof.
  intros (Hl & title & snippet & source & Ht & Hsn & Hs & _) (s & Hs' & ->).
  unfold record_of.
  rewrite lookup_insert_eq, !lookup_insert_ne, lookup_insert_eq by done.
  rewrite Ht, Hsn, Hs. split_and!; by eexists.
Qed.

Lemma generic_result_record_of (query : string) (i : Z) :
  record_of query (<["query" := query]> (generic_result query i)).
Proof. unfold record_of, generic_result. split_and!; by eexists. Qed.

(** The records of the mock generator carry the query. *)
Lemma mock_results_record_of (query : string) (max_results : Z) results :
  _generate_mock_results query max_results = Returns results →
  Forall (record_of query) results.
Proof.
  destruct (find_topic (Py.lower query) topics) as [canned|] eqn:Hf.
  - destruct (mock_results_topic query max_results canned Hf) as (rs & -> & Hall).
    intros [= <-]. destruct (find_topic_canned _ _ Hf) as [Hc _].
    pose proof (slice_to_canned canned max_results Hc) as Hs.
    induction Hall as [|c r l l' Hcr _ IH]; [constructor |].
    apply Forall_cons in Hs as [Hc1 Hs].
    constructor; [by eapply completed_record_of | by apply IH].
  - rewrite mock_results_generic by done. intros [= <-].
    apply Forall_fmap, Forall_true. intros i. apply generic_result_record_of.
Qed.

Section Searches.

Context {W QueryResult : Type} (self : Services W QueryResult).

Lemma ddg_divs_record_of (query : string) (divs : list ddg_div) :
  Forall (record_of query) (parse_divs (parse_ddg_div self query) divs).
Proof.
  apply parse_divs_records. intros x r Hr.
  apply parse_ddg_div_record in Hr as (? & ? & ? & ? & -> & _).
  apply search_result_record_of.
Qed.

Lemma google_divs_record_of (query : string) (divs : list google_div) :
  Forall (record_of query) (parse_divs (parse_google_div query) divs).
Proof.
  apply parse_divs_records. intros x r Hr.
  apply parse_google_div_record in Hr as (? & ? & ? & ? & -> & _).
  apply search_result_record_of.
Qed.

Lemma google_results_record_of (query : string) (max_results : Z)
    (found : list (gmap string string)) (w w' : W) :
  google_results self query max_results w = (Returns (Some found), w') →
  Forall (record_of query) found.
Proof.
  unfold google_results. run.
  destruct (quote_plus self query) as [quoted|e]; simpl; [| done].
  destruct (requests_get self _ w) as [[response|e] w1]; simpl; [| done].
  destruct (status_code response =? 200); [| done].
  destruct (parse_divs _ _) as [|r rs] eqn:Hp; [done |].
  intros [= <- <-]. rewrite <- Hp. apply google_divs_record_of.
Qed.

Lemma fallback_search_record_of (query : string) (max_results : Z)
    (results : list (gmap string string)) (w w' : W) :
  _fallback_search self query max_results w = (Returns results, w') →
  Forall (record_of query) results.
Proof.
  unfold _fallback_search. unfold mbind at 1, M_bind at 1, bind at 1.
  destruct (google_results self query max_results w) as [[[found|]|e] w1] eqn:Hg;
    run; [| | done].
  - intros [= <- <-]. by eapply google_results_record_of.
  - destruct (_generate_mock_results query max_results) as [rs|e] eqn:Hm; [| done].
    intros [= <- <-]. by eapply mock_results_record_of.
Qed.

Lemma ddg_results_record_of (query : string) (max_results : Z)
    (results : list (gmap string string)) (w w' : W) :
  ddg_results self query max_results w = (Returns results, w') →
  Forall (record_of query) results.
Proof.
  unfold ddg_results. run.
  destruct (quote_plus self query) as [quoted|]; simpl; [| done].
  destruct (requests_get self _ w) as [[response|] ?]; simpl; [| done].
  destruct (raise_for_status response); simpl; [| done].
  intros [= <- <-]. apply ddg_divs_record_of.
Qed.

(** X6.  For every query and every cap, negative or not, a search
    returns: it never raises.  Every record it returns has the five keys
    and carries the query searched for; when the cap is not negative the
    records are no more than the cap, so that a cap of zero gives none. *)
Theorem search_web_records (query : string) (max_results : Z) (w : W) :
  ∃ results w',
    _search_web self query max_results w = (Returns results, w') ∧
    Forall (record_of query) results ∧
    (0 ≤ max_results → Z.of_nat (length results) ≤ max_results) ∧
    (max_results = 0 → results = []).
Proof.
  destruct (search_web_returns self query max_results w)
    as (results & w' & Hs & _ & Hlen).
  exists results, w'. split; [exact Hs |]. split; [| split; [exact Hlen |]].
  - revert Hs. unfold _search_web.
    unfold try_except, mbind at 1, M_bind at 1, bind at 1.
    destruct (ddg_results self query max_results w) as [[[|r rs]|e] w1] eqn:Hd.
    + destruct (fallback_search_returns self query max_results w1)
        as (rs & w2 & Hf & _).
      rewrite Hf. intros [= <- <-]. by eapply fallback_search_record_of.
    + intros [= <- <-]. by eapply ddg_results_record_of.
    + by apply fallback_search_record_of.
  - intros ->. specialize (Hlen ltac:(done)).
    destruct results; [done | simpl in Hlen; lia].
Qed.

(** X7.  The second engine counts only with status 200: on any other
    status its page is not read, whatever it holds, and the fallback
    returns the records of the mock generator. *)
Theorem fallback_search_other_status (query : string) (max_results : Z)
    (quoted : string) (response : http_response) (w w1 : W) :
  quote_plus self query = Returns quoted →
  requests_get self ("https://www.google.com/search?q=" +:+ quoted) w
    = (Returns response, w1) →
  status_code response ≠ 200 →
  ∃ results,
    _generate_mock_results query max_results = Returns results ∧
    _fallback_search self query max_results w = (Returns results, w1).
Proof.
  intros Hq Hget Hstatus.
  destruct (mock_results_within query max_results) as (results & Hm & _).
  exists results. split; [exact Hm |].
  unfold _fallback_search, google_results. run. rewrite Hq. simpl. rewrite Hget.
  destruct (Z.eqb_spec (status_code response) 200) as [|_]; [done |].
  by rewrite Hm.
Qed.

(** X8.  The first engine's page is not read when its status is an
    error status, 400 to 599: [raise_for_status] raises, and the search
    is the fallback, run in the world the request has left. *)
Theorem search_web_error_status (query : string) (max_results : Z)
    (quoted : string) (response : http_response) (w w1 : W) :
  quote_plus self query = Returns quoted →
  requests_get self ("https://html.duckduckgo.com/html/?q=" +:+ quoted) w
    = (Returns response, w1) →
  400 ≤ status_code response < 600 →
  _search_web self query max_results w
    = _fallback_search self query max_results w1.
Proof.
  intros Hq Hget Hstatus.
  unfold _search_web, ddg_results, raise_for_status. run.
  rewrite Hq. simpl. rewrite Hget.
  destruct (Z.leb_spec 400 (status_code response)); [| lia].
  destruct (Z.ltb_spec (status_code response) 600); [| lia].
  done.
Qed.

End Searches.

(** ** The source of a link *)

(** X9.  The index 2 of the split is never out of range: for every link
    the source is computed, without [IndexError]; it is the link itself
    when the link has no doubled slash, and the third part of the split
    otherwise. *)
Theorem source_of_link_in_range (link : string) :
  ∃ source,
    source_of_link link = Returns source ∧
    (Py.contains "//" link = false → source = link) ∧
    (Py.contains "//" link = true → Py.split "/" link !! 2%nat = Some source).
Proof.
  unfold source_of_link. destruct (Py.contains "//" link) eqn:Hc.
  - destruct (split_third link Hc) as [host Hhost]. rewrite Hhost.
    exists host. by split_and!.
  - exists link. by split_and!.
Qed.

Lemma contains_slash_cons (c : ascii) (s : string) :
  Py.contains "/" (String c s) = false →
  c ≠ "/"%char ∧ Py.contains "/" s = false.
Proof.
  cbn [Py.contains String.prefix]. intros H.
  apply orb_false_elim in H as [Hp Hs]. split; [| done].
  intros ->. by destruct s.
Qed.

Lemma up_to_slash_free (host rest : string) :
  Py.contains "/" host = false →
  up_to_slash host = host ∧
  up_to_slash (host +:+ String "/" rest) = host.
Proof.
  induction host as [|c host IH]; [done |].
  intros H. apply contains_slash_cons in H as [Hc Hs].
  destruct (IH Hs) as [IH1 IH2].
  change (String c host +:+ String "/" rest)
    with (String c (host +:+ String "/" rest)).
  cbn [up_to_slash].
  destruct (Ascii.eqb_spec c "/") as [|_]; [done |]. by rewrite IH1, IH2.
Qed.

Lemma delimiter_after_scheme (scheme rest : string) :
  Py.contains "/" scheme = false →
  first_slash_doubled (scheme +:+ String ":" (String "/" (String "/" rest))) = true ∧
  after_delimiter (scheme +:+ String ":" (String "/" (String "/" rest))) = Some rest.
Proof.
  induction scheme as [|c scheme IH]; [done |].
  intros H. apply contains_slash_cons in H as [Hc Hs].
  destruct (IH Hs) as [IH1 IH2].
  change (String c scheme +:+ ?s) with (String c (scheme +:+ s)).
  cbn [first_slash_doubled after_delimiter].
  destruct (Ascii.eqb_spec c "/") as [|_]; [done |]. split; [done |].
  destruct (scheme +:+ _) eqn:Happ; [by destruct scheme |].
  cbn [andb]. exact IH2.
Qed.

(** X10.  On an absolute URL, a scheme and a host without slash around
    the delimiter, the source is the host, with or without a path after
    it. *)
Theorem source_of_absolute_url (scheme host path : string) :
  Py.contains "/" scheme = false →
  Py.contains "/" host = false →
  source_of_link (scheme +:+ "://" +:+ host) = Returns host ∧
  source_of_link (scheme +:+ "://" +:+ host +:+ "/" +:+ path) = Returns host.
Proof.
  intros Hscheme Hhost.
  destruct (up_to_slash_free host path Hhost) as [Hh1 Hh2].
  split.
  - destruct (delimiter_after_scheme scheme host Hscheme) as [Hf Ha].
    rewrite source_of_link_host by (right; exact Hf).
    unfold host_component.
    change (scheme +:+ "://" +:+ host)
      with (scheme +:+ String ":" (String "/" (String "/" host))).
    by rewrite Ha, Hh1.
  - destruct (delimiter_after_scheme scheme (host +:+ "/" +:+ path) Hscheme) as [Hf Ha].
    rewrite source_of_link_host by (right; exact Hf).
    unfold host_component.
    change (scheme +:+ "://" +:+ host +:+ "/" +:+ path)
      with (scheme +:+ String ":" (String "/" (String "/" (host +:+ "/" +:+ path)))).
    rewrite Ha. change (host +:+ "/" +:+ path) with (host +:+ String "/" path).
    by rewrite Hh2.
Qed.

(** ** The mock generator, counted *)

Lemma topics_three : Forall (fun item => length item.2 = 3%nat) topics.
Proof. unfold topics. by repeat constructor. Qed.

Lemma find_topic_three (query_lower : string) canned :
  find_topic query_lower topics = Some canned → length canned = 3%nat.
Proof.
  intros H. destruct (find_topic_elem _ _ _ H) as (topic & Hin & _).
  pose proof topics_three as Hall. rewrite Forall_forall in Hall.
  exact (Hall _ Hin).
Qed.

(** X11.  How many records the mock generator returns, for every query
    and every cap.  On a known topic the canned set has three records: the
    cap, when it is not negative, keeps the first of them up to three, and
    a negative cap drops as many from the end.  On any other query there
    is one generic record for each index below the cap, none when the cap
    is not positive. *)
Theorem mock_results_count (query : string) (max_results : Z) :
  ∃ results,
    _generate_mock_results query max_results = Returns results ∧
    Z.of_nat (length results) =
      match find_topic (Py.lower query) topics with
      | Some _ =>
          if 0 <=? max_results then Z.min max_results 3
          else Z.max 0 (3 + max_results)
      | None => Z.max 0 max_results
      end.
Proof.
  destruct (find_topic (Py.lower query) topics) as [canned|] eqn:Hf.
  - destruct (mock_results_topic query max_results canned Hf) as (results & Hr & Hall).
    exists results. split; [exact Hr |].
    apply Forall2_length in Hall. rewrite <- Hall.
    pose proof (find_topic_three _ _ Hf) as H3.
    unfold Py.slice_to. destruct (Z.leb_spec 0 max_results).
    + rewrite length_take, H3. lia.
    + rewrite length_take, H3. lia.
  - rewrite mock_results_generic by done. eexists. split; [reflexivity |].
    rewrite length_fmap, length_range. lia.
Qed.

Lemma lookup_range (n : Z) (i : nat) (k : Z) :
  Py.range n !! i = Some k → k = Z.of_nat i.
Proof.
  unfold Py.range. rewrite list_lookup_fmap.
  destruct (seq 0 (Z.to_nat n) !! i) as [j|] eqn:Hj; [| done].
  apply lookup_seq in Hj as [-> _]. by intros [= <-].
Qed.

Lemma append_inj_l (p a b : string) : p +:+ a = p +:+ b → a = b.
Proof.
  induction p as [|c p IH]; [done |].
  change (String c p +:+ ?s) with (String c (p +:+ s)).
  intros [= H]. by apply IH.
Qed.

(** X12.  The generic records of one call are told apart by their links:
    the record at index [i] links to the research numbered [i + 1], and no
    two records of the list have the same link. *)
Theorem generic_results_links (query : string) (max_results : Z)
    (results : list (gmap string string)) :
  find_topic (Py.lower query) topics = None →
  _generate_mock_results query max_results = Returns results →
  (∀ (i : nat) r, results !! i = Some r →
     r !! "link" = Some ("https://example.com/research-" +:+
                         Py.str_of_int (Z.of_nat i + 1))) ∧
  (∀ (i j : nat) r r', results !! i = Some r → results !! j = Some r' →
     r !! "link" = r' !! "link" → i = j).
Proof.
  intros Hf. rewrite mock_results_generic by done. intros [= <-].
  assert (∀ (i : nat) r,
            ((fun i => <["query" := query]> (generic_result query i))
               <$> Py.range max_results) !! i = Some r →
            r !! "link" = Some ("https://example.com/research-" +:+
                                Py.str_of_int (Z.of_nat i + 1))) as Hlink.
  { intros i r. rewrite list_lookup_fmap.
    destruct (Py.range max_results !! i) as [k|] eqn:Hk; [| done].
    apply lookup_range in Hk as ->. by intros [= <-]. }
  split; [exact Hlink |].
  intros i j r r' Hi Hj. rewrite (Hlink i r Hi), (Hlink j r' Hj).
  intros Heq. apply (inj Some), append_inj_l in Heq.
  unfold Py.str_of_int in Heq. apply (inj pretty) in Heq. lia.
Qed.

(** ** The code fence of a reply *)

Lemma rstrip_app_nl (s : string) : Py.rstrip (s +:+ Py.nl) = Py.rstrip s.
Proof.
  induction s as [|c s IH]; [done |].
  change (String c s +:+ Py.nl) with (String c (s +:+ Py.nl)).
  cbn [Py.rstrip]. by rewrite IH.
Qed.

Lemma strip_app_nl (s : string) : Py.strip (s +:+ Py.nl) = Py.strip s.
Proof.
  unfold Py.strip. induction s as [|c s IH]; [done |].
  change (String c s +:+ Py.nl) with (String c (s +:+ Py.nl)).
  cbn [Py.lstrip]. destruct (Py.is_space c); [exact IH |].
  exact (rstrip_app_nl (String c s)).
Qed.

Lemma rstrip_app_kept (s t : string) :
  Py.rstrip t = t → t ≠ "" → Py.rstrip (s +:+ t) = s +:+ t.
Proof.
  intros Ht Hne. induction s as [|c s IH]; [done |].
  change (String c s +:+ t) with (String c (s +:+ t)).
  cbn [Py.rstrip]. rewrite IH. destruct s; [by destruct t | done].
Qed.

Lemma contains_tick_cons (c : ascii) (s : string) :
  Py.contains "`" (String c s) = false →
  c ≠ "`"%char ∧ Py.contains "`" s = false.
Proof.
  cbn [Py.contains String.prefix]. intros H.
  apply orb_false_elim in H as [Hp Hs]. split; [| done].
  intros ->. by destruct s.
Qed.

(** Replacing a marker that starts with a backtick leaves what has no
    backtick as it is. *)
Lemma replace_from_app (old new s t : string) :
  Py.contains "`" s = false →
  Py.replace_from (String "`" old) new 0 (s +:+ t)
    = s +:+ Py.replace_from (String "`" old) new 0 t.
Proof.
  induction s as [|c s IH]; [done |].
  intros H. apply contains_tick_cons in H as [Hc Hs].
  change (String c s +:+ t) with (String c (s +:+ t)).
  cbn [Py.replace_from String.prefix].
  destruct (ascii_dec "`" c) as [<-|_]; [done |].
  by rewrite (IH Hs).
Qed.

(** X13.  A reply in a JSON code fence: the opening marker, a line feed,
    a body without backtick, a line feed and the closing marker.  What is
    handed to the JSON decoder is the body, stripped. *)
Theorem extract_json_fenced (body : string) :
  Py.contains "`" body = false →
  extract_json ("```json" +:+ Py.nl +:+ body +:+ Py.nl +:+ "```")
    = Py.strip body.
Proof.
  intros Hbody. unfold extract_json.
  assert (Py.strip ("```json" +:+ Py.nl +:+ body +:+ Py.nl +:+ "```")
            = "```json" +:+ Py.nl +:+ body +:+ Py.nl +:+ "```") as ->.
  { unfold Py.strip.
    assert (Py.rstrip (body +:+ Py.nl +:+ "```") = body +:+ Py.nl +:+ "```")
      as Hkept by by apply rstrip_app_kept.
    refine (rstrip_app_kept ("```json" +:+ Py.nl) _ Hkept _). by destruct body. }
  change (Py.startswith ("```json" +:+ Py.nl +:+ body +:+ Py.nl +:+ "```") "```json")
    with true. cbn match.
  assert (Py.replace ("```json" +:+ Py.nl +:+ body +:+ Py.nl +:+ "```") "```json" ""
            = Py.nl +:+ body +:+ Py.nl +:+ "```") as ->.
  { change (Py.replace ("```json" +:+ Py.nl +:+ body +:+ Py.nl +:+ "```") "```json" "")
      with (String "010" (Py.replace_from "```json" "" 0 (body +:+ Py.nl +:+ "```"))).
    by rewrite replace_from_app. }
  assert (Py.replace (Py.nl +:+ body +:+ Py.nl +:+ "```") "```" ""
            = Py.nl +:+ body +:+ Py.nl) as ->.
  { change (Py.replace (Py.nl +:+ body +:+ Py.nl +:+ "```") "```" "")
      with (String "010" (Py.replace_from "```" "" 0 (body +:+ Py.nl +:+ "```"))).
    by rewrite replace_from_app. }
  change (Py.strip (Py.nl +:+ body +:+ Py.nl))
    with (Py.strip (body +:+ Py.nl)).
  apply strip_app_nl.
Qed.

Lemma loads_backtick (s : string) :
  Json.loads (String "`" s) = Raises JSONDecodeError.
Proof. reflexivity. Qed.

Section Fences.

Context {W QueryResult : Type} (self : Services W QueryResult).

(** X14.  Only the fence marked [json] is removed.  When the reply,
    stripped, starts with a backtick without being so marked, as a bare
    fence does, nothing is removed, the decoder refuses the text, and
    the decomposer returns the question alone. *)
Theorem break_down_question_other_fence (q : string)
    (response : chat_response) (content rest : string) (w w' : W) :
  chat_completions_create self (break_down_request q) w
    = (Returns response, w') →
  message_content response = Returns content →
  Py.strip content = String "`" rest →
  Py.startswith (String "`" rest) "```json" = false →
  _break_down_question self q w = (Returns (JArr [JStr q]), w').
Proof.
  intros Hcall Hcontent Hstrip Hfence.
  unfold _break_down_question. run. rewrite Hcall, Hcontent. simpl.
  unfold extract_json. rewrite Hstrip, Hfence.
  by rewrite loads_backtick.
Qed.

End Fences.

(** ** The summarizer, beyond its sources *)

(** The loop of the summarizer stops at the first result without one of
    the three keys it reads. *)
Lemma build_sources_stops (k : nat) (pre : list (gmap string string))
    (r : gmap string string) (post : list (gmap string string))
    (context : string) (sources : list Source) :
  Forall citable pre → ¬ citable r →
  ∃ key,
    key ∈ ["title"; "snippet"; "link"] ∧ r !! key = None ∧
    ofold add_source (imap (fun i x => (Z.of_nat (k + i), x)) (pre ++ r :: post))
      (context, sources) = Raises (KeyError key).
Proof.
  intros Hpre Hr. revert k context sources.
  induction Hpre as [|x pre Hx _ IH]; intros k context sources.
  - cbn [app]. rewrite imap_cons, ofold_cons. unfold add_source, Py.getitem.
    destruct (r !! "title") as [t|] eqn:Ht; cycle 1.
    { exists "title". split; [set_solver | done]. }
    destruct (r !! "snippet") as [sn|] eqn:Hsn; cycle 1.
    { exists "snippet". split; [set_solver | done]. }
    destruct (r !! "link") as [l|] eqn:Hl; cycle 1.
    { exists "link". split; [set_solver | done]. }
    destruct Hr. unfold citable. rewrite Ht, Hsn, Hl. by split_and!.
  - destruct (add_source_citable context sources (Z.of_nat (k + 0)) x Hx)
      as (context1 & s & Hadd & _).
    destruct (IH (S k) context1 (sources ++ [s])) as (key & Hin & Hkey & Hfold).
    exists key. split; [exact Hin |]. split; [exact Hkey |].
    rewrite <- app_comm_cons, imap_cons, ofold_cons, Hadd. unfold obind at 1.
    rewrite <- Hfold. f_equal. apply imap_ext. intros i y _. simpl. f_equal. lia.
Qed.

Section Summaries.

Context {W QueryResult : Type} (self : Services W QueryResult).

(** X15.  A result without a title, a snippet or a link stops the
    summarizer: it raises the [KeyError] of a key the first such result
    lacks, and since the loop comes before the [try], the model is not
    called and no source is returned: the world is as it was. *)
Theorem summarize_findings_missing_key (main_question : string)
    (sub_questions : list string) (pre : list (gmap string string))
    (r : gmap string string) (post : list (gmap string string)) (w : W) :
  Forall citable pre → ¬ citable r →
  ∃ key,
    key ∈ ["title"; "snippet"; "link"] ∧ r !! key = None ∧
    _summarize_findings self main_question sub_questions (pre ++ r :: post) w
      = (Raises (KeyError key), w).
Proof.
  intros Hpre Hr.
  destruct (build_sources_stops 0 pre r post "" [] Hpre Hr)
    as (key & Hin & Hkey & Hfold).
  exists key. split; [exact Hin |]. split; [exact Hkey |].
  apply summarize_findings_key_error. exact Hfold.
Qed.

(** X16.  When the model answers, the summary is the content of its
    first choice, stripped; an answer with no choice, or whose first
    choice has no content, gives the fixed error message instead of an
    exception.  The sources are the built ones either way. *)
Theorem summarize_findings_summary (main_question : string)
    (sub_questions : list string) (search_results : list (gmap string string))
    (context : string) (sources : list Source) (response : chat_response)
    (w w' : W) :
  build_sources search_results = Returns (context, sources) →
  chat_completions_create self
    (summary_request main_question sub_questions context) w
    = (Returns response, w') →
  _summarize_findings self main_question sub_questions search_results w
    = (Returns (match choices response with
                | Some content :: _ => Py.strip content
                | _ => error_summary
                end, sources), w').
Proof.
  intros Hb Hcall.
  destruct (message_content response) as [content|e] eqn:Hcontent.
  - unfold _summarize_findings. rewrite Hb. run. simpl. rewrite Hcall, Hcontent.
    unfold message_content in Hcontent.
    destruct (choices response) as [|[c|] cs]; [done | | done].
    by injection Hcontent as ->.
  - rewrite (summarize_findings_no_content self _ _ _ _ _ _ _ _ _ Hb Hcall Hcontent).
    unfold message_content in Hcontent.
    by destruct (choices response) as [|[c|] cs].
Qed.

End Summaries.

(** ** The endpoint *)

Section Handler.

Context {W QueryResult : Type} (self : Services W QueryResult).


(** Without a cap, the division fails at the first sub-question. *)
Lemma conduct_research_opt_none (q rid : string) (v : json) (w w1 w2 : W) :
  uuid4 self w = (rid, w1) →
  _break_down_question self q w1 = (Returns v, w2) →
  conduct_research_opt self q None w =
    match iterate v with
    | Raises e => (Raises e, w2)
    | Returns [] => after_search self rid q v [] [] w2
    | Returns (_ :: _) => (Raises TypeError, w2)
    end.
Proof.
  intros Hid Hbd. unfold conduct_research_opt, after_search.
  unfold mbind at 1, M_bind at 1, bind at 1, ask. rewrite Hid.
  unfold mbind at 1, M_bind at 1, bind at 1. rewrite Hbd.
  unfold mbind at 1, M_bind at 1, bind at 1, lift.
  by destruct (iterate v) as [[|item items]|e].
Qed.


(** X17.  A request whose [max_results] is null is answered with
    status 500 and a [TypeError] as soon as the decomposer's value has
    something to iterate over, or cannot be iterated: the model has been
    asked for the decomposition, and nothing is searched, summarized or
    stored. *)
Theorem api_research_null_max_results (query : ResearchQuery) (rid : string)
    (v : json) (w w1 w2 : W) :
  query_max_results query = None →
  uuid4 self w = (rid, w1) →
  _break_down_question self (query_question query) w1 = (Returns v, w2) →
  iterate v ≠ Returns [] →
  api_conduct_research self query w
    = (Returns (HTTPException 500 TypeError), w2).
Proof.
  intros Hnone Hid Hbd Hitems.
  unfold api_conduct_research, try_except.
  unfold mbind at 1, M_bind at 1, bind at 1.
  rewrite Hnone, (conduct_research_opt_none _ _ _ _ _ _ Hid Hbd).
  destruct (iterate v) as [[|item items]|e] eqn:Hit; [done | done |].
  destruct v; by inversion Hit.
Qed.


End Handler.

(** ** The port to serve on *)

Section FreePort.

Context {W : Type} (socket_bind : Z → W → bind_outcome * W).

Lemma probe_app (pre rest : list Z) (w w1 : W) :
  all_busy socket_bind pre w w1 →
  probe socket_bind (pre ++ rest) w = probe socket_bind rest w1.
Proof.
  induction 1 as [|port ports w w1 w2 Hbind _ IH]; [done |].
  cbn [app probe]. by rewrite Hbind.
Qed.

Lemma probe_outcome (ports : list Z) (w : W) :
  match probe socket_bind ports w with
  | (Returns (Some port), w') =>
      ∃ pre post w1, ports = pre ++ port :: post ∧
        all_busy socket_bind pre w w1 ∧ socket_bind port w1 = (Bound, w')
  | (Returns None, w') => all_busy socket_bind ports w w'
  | (Raises e, w') =>
      ∃ pre port post w1, ports = pre ++ port :: post ∧
        all_busy socket_bind pre w w1 ∧
        socket_bind port w1 = (Unexpected e, w')
  end.
Proof.
  revert w. induction ports as [|port ports IH]; intros w; [constructor |].
  cbn [probe]. destruct (socket_bind port w) as [[| |e] w1] eqn:Hbind.
  - exists [], ports, w. split_and!; [done | constructor | done].
  - specialize (IH w1).
    destruct (probe socket_bind ports w1) as [[[found|]|e] w2].
    + destruct IH as (pre & post & w3 & -> & Hbusy & Hb).
      exists (port :: pre), post, w3. split_and!; [done | | done].
      by econstructor.
    + by econstructor.
    + destruct IH as (pre & p & post & w3 & -> & Hbusy & Hb).
      exists (port :: pre), p, post, w3. split_and!; [done | | done].
      by econstructor.
  - exists [], port, ports, w. split_and!; [done | constructor | done].
Qed.

(** X19.  The port returned is the first of the list that can be bound:
    when the ports before it all raise [OSError] and it binds, it is the
    answer, and the ports after it are not tried. *)
Theorem find_free_port_first_bound (pre : list Z) (port : Z) (post : list Z)
    (w w1 w2 : W) :
  ports_to_try = pre ++ port :: post →
  all_busy socket_bind pre w w1 →
  socket_bind port w1 = (Bound, w2) →
  find_free_port socket_bind w = (Returns port, w2).
Proof.
  intros Hports Hbusy Hbound. unfold find_free_port.
  unfold mbind at 1, M_bind at 1, bind at 1.
  rewrite Hports, (probe_app pre (port :: post) w w1 Hbusy).
  cbn [probe]. by rewrite Hbound.
Qed.

(** X20.  When every port of the list raises [OSError], the port
    returned is 8888, the first of the list: a port that has just been
    found busy. *)
Theorem find_free_port_all_busy (w w' : W) :
  all_busy socket_bind ports_to_try w w' →
  find_free_port socket_bind w = (Returns 8888, w') ∧
  ∃ w1, socket_bind 8888 w = (OSError, w1).
Proof.
  intros Hbusy. split.
  - unfold find_free_port. unfold mbind at 1, M_bind at 1, bind at 1.
    rewrite <- (app_nil_r ports_to_try), (probe_app _ [] w w' Hbusy).
    done.
  - unfold ports_to_try in Hbusy. inversion Hbusy; subst. by eexists.
Qed.

(** X21.  Whatever the sockets do, a port that is returned is one of
    the eight of the list, and the only exception that comes out is one
    that is not an [OSError], raised at a port of the list after the
    ports before it were found busy. *)
Theorem find_free_port_in_list (w : W) :
  match find_free_port socket_bind w with
  | (Returns port, _) => port ∈ ports_to_try
  | (Raises e, w') =>
      ∃ pre port post w1, ports_to_try = pre ++ port :: post ∧
        all_busy socket_bind pre w w1 ∧
        socket_bind port w1 = (Unexpected e, w')
  end.
Proof.
  unfold find_free_port. unfold mbind at 1, M_bind at 1, bind at 1.
  pose proof (probe_outcome ports_to_try w) as H.
  destruct (probe socket_bind ports_to_try w) as [[[port|]|e] w'].
  - destruct H as (pre & post & w1 & Hports & _). cbn.
    rewrite Hports. set_solver.
  - cbn. unfold ports_to_try. set_solver.
  - exact H.
Qed.

End FreePort.

(** ** More of the code, in the scripted world *)

(** The model answers the decomposition prompt with a number. *)
Lemma research_request_outcome_witness :
  match conduct_research scripted "What is AI?" 10 (serving [reply "5"] []) with
  | (Returns response, _) =>
      (∃ items, iterate (JNum "5") = Returns items ∧ Forall is_JStr items) ∧
      question response = "What is AI?" ∧
      sub_questions response = JNum "5" ∧
      research_id response = "research-0"
  | (Raises e, w') =>
      (e = TypeError ∧ iterate (JNum "5") = Raises TypeError ∧
       w' = {| completions := []; pages := []; store := Some []; clock := 1 |}) ∨
      (e = AttributeError ∧
       ∃ items, iterate (JNum "5") = Returns items ∧ ¬ Forall is_JStr items)
  end.
Proof.
  exact (research_request_outcome scripted "What is AI?" 10 "research-0"
           (JNum "5") (serving [reply "5"] []) _ _ eq_refl eq_refl).
Defined.

(** The model answers with a list of a sub-question and a number. *)
Lemma research_request_bad_item_witness :
  ∃ rss w3,
    fan_out scripted (10 / Z.of_nat (1 + 1 + 0)) ["What is AI?"]
      {| completions := []; pages := []; store := Some []; clock := 1 |} rss w3 ∧
    conduct_research scripted "What is AI?" 10
      (serving [reply ("[" +:+ quoted "What is AI?" +:+ ", 1]")] [])
      = (Raises AttributeError, w3).
Proof.
  apply (research_request_bad_item scripted "What is AI?" 10 "research-0"
           ["What is AI?"] (JNum "1") []
           (serving [reply ("[" +:+ quoted "What is AI?" +:+ ", 1]")] [])
           _ _ eq_refl eq_refl).
  by intros [s Hs].
Defined.

(** Every service is down. *)
Lemma research_request_without_model_witness :
  ∃ w2 results w3 response w',
    _break_down_question scripted "What is AI?"
      {| completions := []; pages := []; store := None; clock := 1 |}
      = (Returns (JArr [JStr "What is AI?"]), w2) ∧
    _search_web scripted "What is AI?" 10 w2 = (Returns results, w3) ∧
    conduct_research scripted "What is AI?" 10 offline = (Returns response, w') ∧
    question response = "What is AI?" ∧
    sub_questions response = JArr [JStr "What is AI?"] ∧
    research_id response = "research-0" ∧
    sources_of results (sources response).
Proof.
  exact (research_request_without_model scripted "What is AI?" 10 "research-0"
           (ServiceError "completion service unavailable") offline _
           eq_refl eq_refl).
Defined.

(** Two sub-questions and seven results asked for: three a search. *)
Lemma research_response_invariant_witness :
  ∃ rss w3 response w',
    fan_out scripted 3 ["What is AI?"; "How is AI used?"]
      {| completions := []; pages := []; store := Some []; clock := 1 |} rss w3 ∧
    conduct_research scripted "What is AI?" 7
      (serving [reply (json_array ["What is AI?"; "How is AI used?"])] [])
      = (Returns response, w') ∧
    question response = "What is AI?" ∧
    research_id response = "research-0" ∧
    sources_of (concat rss) (sources response) ∧
    Z.of_nat (length (sources response)) ≤ 7.
Proof.
  destruct (research_response_invariant scripted "What is AI?" 7 "research-0"
              (JArr [JStr "What is AI?"; JStr "How is AI used?"])
              ["What is AI?"; "How is AI used?"]
              (serving [reply (json_array ["What is AI?"; "How is AI used?"])] [])
              _ _ eq_refl eq_refl eq_refl)
    as (rss & w3 & response & w' & Hfan & Hrun & Hq & _ & Hid & Hsrcs & Hlen).
  exists rss, w3, response, w'.
  split; [exact Hfan |]. split; [exact Hrun |]. split; [exact Hq |].
  split; [exact Hid |]. split; [exact Hsrcs |]. apply Hlen. lia.
Defined.

(** Two sub-questions and one result asked for. *)
Lemma research_request_starved_witness :
  ∃ rss w3 response w',
    fan_out scripted 0 ["What is AI?"; "How is AI used?"]
      {| completions := []; pages := []; store := Some []; clock := 1 |} rss w3 ∧
    Forall (fun results => results = []) rss ∧
    conduct_research scripted "What is AI?" 1
      (serving [reply (json_array ["What is AI?"; "How is AI used?"])] [])
      = (Returns response, w') ∧
    sub_questions response = JArr [JStr "What is AI?"; JStr "How is AI used?"] ∧
    sources response = [].
Proof.
  apply (research_request_starved scripted "What is AI?" 1 "research-0"
           ["What is AI?"; "How is AI used?"]
           (serving [reply (json_array ["What is AI?"; "How is AI used?"])] [])
           _ _ eq_refl eq_refl).
  simpl. lia.
Defined.

(** The second engine answers 404 with a page that holds a result. *)
Lemma fallback_search_other_status_witness :
  ∃ results,
    _generate_mock_results "tides" 2 = Returns results ∧
    _fallback_search scripted "tides" 2
      (serving [] [Returns (with_status 404 google_page)])
      = (Returns results, serving [] []).
Proof.
  apply (fallback_search_other_status scripted "tides" 2 "tides"
           (with_status 404 google_page)
           (serving [] [Returns (with_status 404 google_page)]) (serving [] [])
           eq_refl eq_refl).
  simpl. lia.
Defined.

(** The first engine answers 503 with a page that holds results. *)
Lemma search_web_error_status_witness :
  _search_web scripted "climate" 5
    (serving [] [Returns (with_status 503 ddg_page)])
  = _fallback_search scripted "climate" 5 (serving [] []).
Proof.
  apply (search_web_error_status scripted "climate" 5 "climate"
           (with_status 503 ddg_page)
           (serving [] [Returns (with_status 503 ddg_page)]) (serving [] [])
           eq_refl eq_refl).
  simpl. lia.
Defined.

Lemma source_of_absolute_url_witness :
  source_of_link "https://www.epa.gov" = Returns "www.epa.gov" ∧
  source_of_link "https://www.epa.gov/climatechange" = Returns "www.epa.gov".
Proof.
  exact (source_of_absolute_url "https" "www.epa.gov" "climatechange"
           eq_refl eq_refl).
Defined.

Lemma generic_results_links_witness :
  ∃ results,
    _generate_mock_results "tides" 2 = Returns results ∧
    (∀ (i : nat) r, results !! i = Some r →
       r !! "link" = Some ("https://example.com/research-" +:+
                           Py.str_of_int (Z.of_nat i + 1))) ∧
    (∀ (i j : nat) r r', results !! i = Some r → results !! j = Some r' →
       r !! "link" = r' !! "link" → i = j).
Proof.
  eexists. split; [reflexivity |].
  exact (generic_results_links "tides" 2 _ eq_refl eq_refl).
Defined.

Lemma extract_json_fenced_witness :
  extract_json (fenced (json_array ["What is AI?"; "How is AI used?"]))
    = json_array ["What is AI?"; "How is AI used?"].
Proof.
  exact (extract_json_fenced (json_array ["What is AI?"; "How is AI used?"])
           eq_refl).
Defined.

(** The model answers with its list in a bare fence. *)
Lemma break_down_question_other_fence_witness :
  _break_down_question scripted "What is AI?"
    (serving [reply (bare_fenced (json_array ["What is AI?"; "How is AI used?"]))] [])
  = (Returns (JArr [JStr "What is AI?"]), serving [] []).
Proof.
  exact (break_down_question_other_fence scripted "What is AI?" _ _ _
           (serving [reply (bare_fenced (json_array ["What is AI?"; "How is AI used?"]))] [])
           _ eq_refl eq_refl eq_refl eq_refl).
Defined.

(** A third result that has only a title. *)
Lemma summarize_findings_missing_key_witness :
  ∃ key,
    key ∈ ["title"; "snippet"; "link"] ∧
    ({[ "title" := "IPCC" ]} : gmap string string) !! key = None ∧
    _summarize_findings scripted "climate" ["climate"]
      (two_results ++ {[ "title" := "IPCC" ]} :: [])
      (serving [reply "A summary."] [])
    = (Raises (KeyError key), serving [reply "A summary."] []).
Proof.
  apply (summarize_findings_missing_key scripted "climate" ["climate"]
           two_results {[ "title" := "IPCC" ]} []
           (serving [reply "A summary."] []) two_results_citable).
  intros (_ & [snippet Hsnippet] & _). discriminate Hsnippet.
Defined.

Lemma summarize_findings_summary_witness :
  ∃ sources,
    _summarize_findings scripted "climate" ["climate"] two_results
      (serving [reply "  A summary. "] [])
    = (Returns ("A summary.", sources), serving [] []) ∧
    id <$> sources = [1; 2].
Proof.
  eexists. split.
  - exact (summarize_findings_summary scripted "climate" ["climate"] two_results
             _ _ _ (serving [reply "  A summary. "] []) _ eq_refl eq_refl).
  - reflexivity.
Defined.

(** A request body with [max_results] null, every service down. *)
Lemma api_research_null_max_results_witness :
  api_conduct_research scripted
    {| query_question := "What is AI?"; query_max_results := None |} offline
  = (Returns (HTTPException 500 TypeError),
     {| completions := []; pages := []; store := None; clock := 1 |}).
Proof.
  apply (api_research_null_max_results scripted
           {| query_question := "What is AI?"; query_max_results := None |}
           "research-0" (JArr [JStr "What is AI?"]) offline _ _
           eq_refl eq_refl eq_refl).
  discriminate.
Defined.

(** The ports 8888 and 9000 are taken. *)
Lemma find_free_port_first_bound_witness :
  find_free_port (bind_unless [8888; 9000]) [] = (Returns 9001, [8888; 9000; 9001]).
Proof.
  apply (find_free_port_first_bound (bind_unless [8888; 9000])
           [8888; 9000] 9001 [9002; 5000; 5001; 4000; 4001] [] [8888; 9000]).
  - reflexivity.
  - apply (all_busy_cons _ 8888 [9000] [] [8888]); [reflexivity |].
    apply (all_busy_cons _ 9000 [] [8888] [8888; 9000]); [reflexivity |].
    apply all_busy_nil.
  - reflexivity.
Defined.

(** Every port of the list is taken. *)
Lemma find_free_port_all_busy_witness :
  find_free_port (bind_unless ports_to_try) [] = (Returns 8888, ports_to_try) ∧
  ∃ w1, bind_unless ports_to_try 8888 [] = (OSError, w1).
Proof.
  apply (find_free_port_all_busy (bind_unless ports_to_try) [] ports_to_try).
  repeat (eapply all_busy_cons; [reflexivity |]). apply all_busy_nil.
Defined.
